(** * Canto-beats: subtitle exporter, translation cascade and ASR prompt

    A shallow embedding of the Python code of the repository that the
    subtitle pipeline specification talks about:

    - [SubtitleExporter] (subtitle exporter module): [export_srt],
      [export_ass], [export_txt], [export_fcpxml], [_format_srt_time],
      [_format_ass_time];
    - the Qwen LLM and MarianMT layers of [StyleProcessor] (excerpts of
      style_processor.py);
    - the construction of Whisper's [initial_prompt] in
      [SubtitlePipelineV2] and [TranscribeWorker].

    Python values are modelled as follows.  A [str] is a [string] holding
    its UTF-8 encoding (the exporter writes its files with
    [encoding='utf-8'], so this is also the content of the file).  A
    [float] is an IEEE 754 binary64 number, [spec_float] with precision 53
    and maximal exponent 1024, with the operations of [SpecFloat].  An
    [int] is a [Z].  A raised exception is the [Raise] outcome of the
    [result] type; code that touches the file system runs in a state monad
    over a [World]. *)

From Stdlib Require Import ZArith String Ascii List Lia.
From Stdlib Require Import Floats.SpecFloat DecimalString.
From stdpp Require Import base option gmap strings list.

Open Scope Z_scope.

(** ** Exceptions and results *)

(** The exceptions that the modelled code can meet: [ValueError] and
    [OverflowError] from [int], [round] and [timedelta] on a float that
    is not a number, infinite or too large; [OSError] from the file
    system; [ExpatError] from the XML parser. *)
Inductive exn : Type :=
  | ValueError
  | OverflowError
  | OSError
  | ExpatError.

Inductive result (A : Type) : Type :=
  | Ok (a : A)
  | Raise (e : exn).
Arguments Ok {A} a.
Arguments Raise {A} e.

#[global] Instance result_ret : MRet result := fun A a => Ok a.
#[global] Instance result_bind : MBind result := fun A B k r =>
  match r with
  | Ok a => k a
  | Raise e => Raise e
  end.

(** ** Python floats *)

Module PyFloat.

Definition prec : Z := 53.
Definition emax : Z := 1024.

Definition float : Type := spec_float.

(** [float(n)] for an integer [n] *)
Definition of_Z (n : Z) : float := binary_normalize prec emax n 0 false.

Definition mul : float -> float -> float := SFmul prec emax.
Definition add : float -> float -> float := SFadd prec emax.
Definition sub : float -> float -> float := SFsub prec emax.
Definition ltb : float -> float -> bool := SFltb.

(** [a / b] on two integers: the quotient correctly rounded to a float.
    [b] is positive in all uses below. *)
Definition int_truediv (a b : Z) : float :=
  match a with
  | Z0 => S754_zero false
  | _ =>
    let '(q, e, l) := SFdiv_core_binary prec emax (Z.abs a) 0 (Z.abs b) 0 in
    binary_round_aux prec emax (xorb (a <? 0) (b <? 0)) q e l
  end.

(** A decimal literal [num / 10^digits], as the parser reads it. *)
Definition lit (num : Z) (digits : nat) : float :=
  int_truediv num (10 ^ Z.of_nat digits).

(** The integer part of a finite float, rounded toward zero. *)
Definition trunc_finite (s : bool) (m : positive) (e : Z) : Z :=
  cond_Zopp s
    match e with
    | Z0 => Zpos m
    | Zpos _ => Z.shiftl (Zpos m) e
    | Zneg p => Z.shiftr (Zpos m) (Zpos p)
    end.

(** [int(x)] *)
Definition to_int (x : float) : result Z :=
  match x with
  | S754_nan => Raise ValueError
  | S754_infinity _ => Raise OverflowError
  | S754_zero _ => Ok 0
  | S754_finite s m e => Ok (trunc_finite s m e)
  end.

(** [round(x)]: to the nearest integer, ties to the even one. *)
Definition round_finite (s : bool) (m : positive) (e : Z) : Z :=
  cond_Zopp s
    match e with
    | Z0 => Zpos m
    | Zpos _ => Z.shiftl (Zpos m) e
    | Zneg p =>
      let d := Z.shiftl 1 (Zpos p) in
      let q := Zpos m / d in
      let r := Zpos m mod d in
      match 2 * r ?= d with
      | Lt => q
      | Gt => q + 1
      | Eq => if Z.even q then q else q + 1
      end
    end.

Definition round (x : float) : result Z :=
  match x with
  | S754_nan => Raise ValueError
  | S754_infinity _ => Raise OverflowError
  | S754_zero _ => Ok 0
  | S754_finite s m e => Ok (round_finite s m e)
  end.

(** The exact value of a finite float as a fraction [num / den]. *)
Definition exact_num (x : float) : Z :=
  match x with
  | S754_finite s m e => cond_Zopp s (if 0 <=? e then Zpos m * 2 ^ e else Zpos m)
  | _ => 0
  end.

Definition exact_den (x : float) : Z :=
  match x with
  | S754_finite s m e => if 0 <=? e then 1 else 2 ^ (- e)
  | _ => 1
  end.

End PyFloat.

Abbreviation float := PyFloat.float.

(** ** Formatting integers: [str(n)], [f"{n:02d}"], [f"{n:03d}"] *)

Definition digits_of (n : Z) : string :=
  NilEmpty.string_of_uint (N.to_uint (Z.to_N (Z.abs n))).

Definition str_int (n : Z) : string :=
  if n <? 0 then "-" +:+ digits_of n else digits_of n.

Fixpoint zeros (k : nat) : string :=
  match k with
  | O => EmptyString
  | S k' => String "0" (zeros k')
  end.

(** [f"{n:0{width}d}"]: the sign comes first and counts in the width. *)
Definition format_0d (width : nat) (n : Z) : string :=
  let ds := digits_of n in
  if n <? 0
  then "-" +:+ zeros (width - 1 - String.length ds) +:+ ds
  else zeros (width - String.length ds) +:+ ds.

(** ** [datetime.timedelta], as far as the exporter uses it *)

Record timedelta : Type := {
  td_days : Z;
  td_seconds : Z;
  td_microseconds : Z
}.

(** [timedelta(seconds=x)] for a float [x]: the integer part of [x] is
    kept, its fractional part is scaled to microseconds in float
    arithmetic and rounded half to even; the whole is normalised to days,
    seconds and microseconds, and more than 999999999 days overflow. *)
Definition timedelta_of_seconds (x : float) : result timedelta :=
  (whole ← PyFloat.to_int x;
   let secondsfrac := PyFloat.sub x (PyFloat.of_Z whole) in
   let usdouble := PyFloat.mul secondsfrac (PyFloat.of_Z 1000000) in
   us ← PyFloat.round usdouble;
   let total_us := whole * 1000000 + us in
   let d := total_us / 86400000000 in
   let rest := total_us mod 86400000000 in
   if 999999999 <? Z.abs d then Raise OverflowError
   else Ok {| td_days := d;
              td_seconds := rest / 1000000;
              td_microseconds := rest mod 1000000 |}).

(** [td.total_seconds()] *)
Definition total_seconds (td : timedelta) : float :=
  PyFloat.int_truediv
    ((td_days td * 86400 + td_seconds td) * 1000000 + td_microseconds td)
    1000000.

(** ** The time formatters of [SubtitleExporter] *)

Record clock : Type := {
  hours : Z;
  minutes : Z;
  secs : Z
}.

(** The first five lines shared by [_format_srt_time] and [_format_ass_time]. *)
Definition clock_of (seconds : float) : result clock :=
  (td ← timedelta_of_seconds seconds;
   total ← PyFloat.to_int (total_seconds td);
   Ok {| hours := total / 3600;
         minutes := (total mod 3600) / 60;
         secs := total mod 60 |}).

(** [int((seconds - int(seconds)) * scale)] *)
Definition subsecond (scale : Z) (seconds : float) : result Z :=
  (whole ← PyFloat.to_int seconds;
   PyFloat.to_int
     (PyFloat.mul (PyFloat.sub seconds (PyFloat.of_Z whole)) (PyFloat.of_Z scale))).

Definition _format_srt_time (seconds : float) : result string :=
  (c ← clock_of seconds;
   millis ← subsecond 1000 seconds;
   Ok (format_0d 2 (hours c) +:+ ":" +:+ format_0d 2 (minutes c) +:+ ":"
         +:+ format_0d 2 (secs c) +:+ "," +:+ format_0d 3 millis)).

Definition _format_ass_time (seconds : float) : result string :=
  (c ← clock_of seconds;
   centisecs ← subsecond 100 seconds;
   Ok (str_int (hours c) +:+ ":" +:+ format_0d 2 (minutes c) +:+ ":"
         +:+ format_0d 2 (secs c) +:+ "." +:+ format_0d 2 centisecs)).

(** The two timecode formats. *)
Inductive timecode_format : Type := SrtTime | AssTime.

Definition format_time (fmt : timecode_format) (seconds : float) : result string :=
  match fmt with
  | SrtTime => _format_srt_time seconds
  | AssTime => _format_ass_time seconds
  end.

(** The factor of the sub-second field: milliseconds or centiseconds. *)
Definition scale_of (fmt : timecode_format) : Z :=
  match fmt with SrtTime => 1000 | AssTime => 100 end.

(** What comes before the sub-second field. *)
Definition clock_part (fmt : timecode_format) (c : clock) : string :=
  match fmt with
  | SrtTime => format_0d 2 (hours c) +:+ ":" +:+ format_0d 2 (minutes c) +:+ ":"
               +:+ format_0d 2 (secs c) +:+ ","
  | AssTime => str_int (hours c) +:+ ":" +:+ format_0d 2 (minutes c) +:+ ":"
               +:+ format_0d 2 (secs c) +:+ "."
  end.

Definition field_width (fmt : timecode_format) : nat :=
  match fmt with SrtTime => 3%nat | AssTime => 2%nat end.

(** [f"{x:.2f}"]: the exact value rounded to two decimals, ties to even;
    the sign is that of the sign bit. *)
Definition format_2f (x : float) : string :=
  let sign (s : bool) : string := if s then "-" else EmptyString in
  let fixed (n : Z) : string := digits_of (n / 100) +:+ "." +:+ format_0d 2 (n mod 100) in
  match x with
  | S754_nan => "nan"
  | S754_infinity s => sign s +:+ "inf"
  | S754_zero s => sign s +:+ fixed 0
  | S754_finite s m e =>
    sign s +:+ fixed
      match e with
      | Z0 => Zpos m * 100
      | Zpos _ => Z.shiftl (Zpos m) e * 100
      | Zneg p =>
        let d := Z.shiftl 1 (Zpos p) in
        let q := (Zpos m * 100) / d in
        let r := (Zpos m * 100) mod d in
        match 2 * r ?= d with
        | Lt => q
        | Gt => q + 1
        | Eq => if Z.even q then q else q + 1
        end
      end
  end.

(** ** The file system and the I/O monad *)

(** The line feed, [\n] in the source. *)
Definition LF : string := String "010"%char EmptyString.

(** [files] maps a path to the content of the file.  [io_script] lists the
    outcomes of the coming calls to the operating system ([open], [write],
    [close]): [false] makes the call raise [OSError]; after the list every
    call succeeds.  [stdout] records what the exception handlers print:
    the prefix of the message and the exception it is completed with. *)
Record World : Type := {
  files : gmap string string;
  io_script : list bool;
  stdout : list (string * exn)
}.

Definition IO (A : Type) : Type := World -> result A * World.

#[global] Instance IO_ret : MRet IO := fun A a w => (Ok a, w).
#[global] Instance IO_bind : MBind IO := fun A B k m w =>
  match m w with
  | (Ok a, w') => k a w'
  | (Raise e, w') => (Raise e, w')
  end.

(** A computation without effects, run inside [IO]. *)
Definition lift {A : Type} (r : result A) : IO A := fun w => (r, w).

Definition try_except {A : Type} (body : IO A) (handler : exn -> IO A) : IO A :=
  fun w =>
    match body w with
    | (Ok a, w') => (Ok a, w')
    | (Raise e, w') => handler e w'
    end.

(** One call to the operating system. *)
Definition syscall : IO unit := fun w =>
  match io_script w with
  | [] => (Ok tt, w)
  | ok :: script =>
    let w' := {| files := files w; io_script := script; stdout := stdout w |} in
    (if ok then Ok tt else Raise OSError, w')
  end.

Definition set_file (path content : string) : IO unit := fun w =>
  (Ok tt, {| files := <[path := content]> (files w);
             io_script := io_script w; stdout := stdout w |}).

Definition content (path : string) (w : World) : string :=
  default EmptyString (files w !! path).

(** [open(path, 'w')] creates the file or truncates it. *)
Definition open_w (path : string) : IO unit :=
  syscall;; set_file path EmptyString.

(** [f.write(s)] *)
Definition append_file (path s : string) : IO unit := fun w =>
  set_file path (content path w +:+ s) w.

Definition write (path s : string) : IO unit :=
  syscall;; append_file path s.

Definition close : IO unit := syscall.

(** [with open(path, 'w') as f: body]: the file is closed when the body
    is left, also by an exception; an exception of [close] replaces that
    of the body. *)
Definition finally_close {A : Type} (body : IO A) : IO A := fun w =>
  match body w with
  | (Ok a, w') => (close;; mret a) w'
  | (Raise e, w') =>
    match close w' with
    | (Ok _, w'') => (Raise e, w'')
    | (Raise e', w'') => (Raise e', w'')
    end
  end.

Definition with_open_w {A : Type} (path : string) (body : IO A) : IO A :=
  open_w path;; finally_close body.

(** [print(f"{prefix}{e}")] *)
Definition print_error (prefix : string) (e : exn) : IO unit := fun w =>
  (Ok tt, {| files := files w; io_script := io_script w;
             stdout := stdout w ++ [(prefix, e)] |}).

Fixpoint for_each {A : Type} (body : A -> IO unit) (l : list A) : IO unit :=
  match l with
  | [] => mret tt
  | x :: l' => body x;; for_each body l'
  end.

(** [enumerate(l, start)] *)
Fixpoint enumerate {A : Type} (start : Z) (l : list A) : list (Z * A) :=
  match l with
  | [] => []
  | x :: l' => (start, x) :: enumerate (start + 1) l'
  end.

(** ** Segments *)

(** A subtitle segment: the dictionary with the keys ['start'], ['end']
    and ['text'] that the exporter reads. *)
Record segment : Type := {
  seg_start : float;
  seg_end : float;
  seg_text : string
}.

(** [s.replace(c, new)] for a pattern [c] of one character. *)
Fixpoint replace_char (c : ascii) (new s : string) : string :=
  match s with
  | EmptyString => EmptyString
  | String a s' =>
    if Ascii.eqb a c then new +:+ replace_char c new s'
    else String a (replace_char c new s')
  end.

(** ** [SubtitleExporter] *)

(** The [try: ...; return True / except Exception as e: print(...); return
    False] frame that every export method has. *)
Definition guarded (prefix : string) (body : IO unit) : IO bool :=
  try_except (body;; mret true) (fun e => print_error prefix e;; mret false).

Definition export_srt_body (segments : list segment) (output_path : string) : IO unit :=
  with_open_w output_path
    (for_each
       (fun '(i, seg) =>
          write output_path (str_int i +:+ LF);;
          start_time ← lift (_format_srt_time (seg_start seg));
          end_time ← lift (_format_srt_time (seg_end seg));
          write output_path (start_time +:+ " --> " +:+ end_time +:+ LF);;
          write output_path (seg_text seg +:+ LF);;
          write output_path LF)
       (enumerate 1 segments)).

Definition export_srt (segments : list segment) (output_path : string) : IO bool :=
  guarded "Error exporting SRT: " (export_srt_body segments output_path).

Definition export_ass_body (segments : list segment) (output_path style_name : string)
  : IO unit :=
  with_open_w output_path
    (write output_path ("[Script Info]" +:+ LF);;
     write output_path ("Title: Canto-beats Export" +:+ LF);;
     write output_path ("ScriptType: v4.00+" +:+ LF);;
     write output_path ("Collisions: Normal" +:+ LF);;
     write output_path ("PlayDepth: 0" +:+ LF +:+ LF);;
     write output_path ("[V4+ Styles]" +:+ LF);;
     write output_path
       ("Format: Name, Fontname, Fontsize, PrimaryColour, SecondaryColour, "
        +:+ "OutlineColour, BackColour, Bold, Italic, Underline, StrikeOut, "
        +:+ "ScaleX, ScaleY, Spacing, Angle, BorderStyle, Outline, Shadow, "
        +:+ "Alignment, MarginL, MarginR, MarginV, Encoding" +:+ LF);;
     write output_path
       ("Style: " +:+ style_name +:+ ",Arial,20,&H00FFFFFF,&H000000FF,&H00000000,"
        +:+ "&H00000000,0,0,0,0,100,100,0,0,1,2,2,2,10,10,10,1" +:+ LF +:+ LF);;
     write output_path ("[Events]" +:+ LF);;
     write output_path
       ("Format: Layer, Start, End, Style, Name, MarginL, MarginR, MarginV, Effect, Text"
        +:+ LF);;
     for_each
       (fun seg =>
          start_time ← lift (_format_ass_time (seg_start seg));
          end_time ← lift (_format_ass_time (seg_end seg));
          let text := replace_char "010" "\N" (seg_text seg) in
          write output_path
            ("Dialogue: 0," +:+ start_time +:+ "," +:+ end_time +:+ "," +:+ style_name
             +:+ ",,0,0,0,," +:+ text +:+ LF))
       segments).

Definition export_ass (segments : list segment) (output_path style_name : string)
  : IO bool :=
  guarded "Error exporting ASS: " (export_ass_body segments output_path style_name).

Definition export_txt_body (segments : list segment) (output_path : string)
    (include_timestamps : bool) : IO unit :=
  with_open_w output_path
    (for_each
       (fun seg =>
          if include_timestamps then
            let timestamp :=
              "[" +:+ format_2f (seg_start seg) +:+ "s - "
              +:+ format_2f (seg_end seg) +:+ "s]" in
            write output_path (timestamp +:+ " " +:+ seg_text seg +:+ LF)
          else
            write output_path (seg_text seg +:+ LF))
       segments).

Definition export_txt (segments : list segment) (output_path : string)
    (include_timestamps : bool) : IO bool :=
  guarded "Error exporting TXT: " (export_txt_body segments output_path include_timestamps).

(** *** FCPXML *)

(** An [xml.etree.ElementTree] element: tag, attributes in the order they
    were given, text, children. *)
#[local] Set Warnings "-register-all".
Inductive element : Type :=
  | Element (tag : string) (attrib : list (string * string)) (text : option string)
            (children : list element).

Definition tag_of (el : element) : string :=
  match el with Element t _ _ _ => t end.

Definition children_of (el : element) : list element :=
  match el with Element _ _ _ cs => cs end.

(** [el.get(key)] *)
Fixpoint assoc (key : string) (attrib : list (string * string)) : option string :=
  match attrib with
  | [] => None
  | (k, v) :: rest => if String.eqb k key then Some v else assoc key rest
  end.

Definition attribute (key : string) (el : element) : option string :=
  match el with Element _ attrib _ _ => assoc key attrib end.

(** The children reached from [el] along a path of tags. *)
Fixpoint descend (path : list string) (el : element) : list element :=
  match path with
  | [] => [el]
  | t :: path' =>
    flat_map (fun c => if String.eqb (tag_of c) t then descend path' c else [])
             (children_of el)
  end.

(** [max(xs)] over floats, started at [first]: an item replaces the
    current maximum when it compares greater. *)
Definition max_float (first : float) (rest : list float) : float :=
  fold_left (fun m x => if PyFloat.ltb m x then x else m) rest first.

Fixpoint collect {A B : Type} (f : A -> result B) (l : list A) : result (list B) :=
  match l with
  | [] => Ok []
  | x :: l' => y ← f x; ys ← collect f l'; Ok (y :: ys)
  end.

(** [f"{frames}/{int(fps)}s"] *)
Definition rational_time (frames fps_int : Z) : string :=
  str_int frames +:+ "/" +:+ str_int fps_int +:+ "s".

(** The [title] element of the segment numbered [i]. *)
Definition title_element (fps : float) (i : Z) (seg : segment) : result element :=
  start_frames ← PyFloat.to_int (PyFloat.mul (seg_start seg) fps);
  span_frames ← PyFloat.to_int (PyFloat.mul (PyFloat.sub (seg_end seg) (seg_start seg)) fps);
  let duration_frames := Z.max 1 span_frames in
  fps_int ← PyFloat.to_int fps;
  Ok (Element "title"
        [("ref", "r2");
         ("name", "字幕 " +:+ str_int i);
         ("offset", rational_time start_frames fps_int);
         ("duration", rational_time duration_frames fps_int);
         ("start", "3600s")]
        None
        [Element "text" [] None
           [Element "text-style-def" [("id", "ts" +:+ str_int i)] None
              [Element "text-style"
                 [("font", "PingFang TC"); ("fontSize", "60"); ("fontColor", "1 1 1 1");
                  ("bold", "0"); ("alignment", "center")]
                 None []];
            Element "text-style" [("ref", "ts" +:+ str_int i)] (Some (seg_text seg)) []]]).

(** The element tree that [export_fcpxml] builds before it serialises it. *)
Definition fcpxml_tree (segments : list segment) (video_duration : option float)
    (fps : float) : result element :=
  let video_duration :=
    match video_duration, segments with
    | None, seg :: rest =>
      PyFloat.add (max_float (seg_end seg) (map seg_end rest)) (PyFloat.of_Z 1)
    | None, [] => PyFloat.of_Z 60
    | Some d, _ => d
    end in
  total_frames ← PyFloat.to_int (PyFloat.mul video_duration fps);
  fps_int ← PyFloat.to_int fps;
  titles ← collect (fun '(i, seg) => title_element fps i seg) (enumerate 1 segments);
  Ok (Element "fcpxml" [("version", "1.10")] None
        [Element "resources" [] None
           [Element "format"
              [("id", "r1"); ("name", "FFVideoFormat1080p30");
               ("frameDuration", "1/" +:+ str_int fps_int +:+ "s");
               ("width", "1920"); ("height", "1080")]
              None [];
            Element "effect"
              [("id", "r2"); ("name", "Basic Title");
               ("uid", ".../Titles.localized/Bumper:Opener.localized/Basic Title.localized/Basic Title.moti")]
              None []];
         Element "library" [] None
           [Element "event" [("name", "Canto-beats 字幕匯出")] None
              [Element "project" [("name", "字幕")] None
                 [Element "sequence"
                    [("format", "r1");
                     ("duration", rational_time total_frames fps_int);
                     ("tcStart", "0s"); ("tcFormat", "NDF");
                     ("audioLayout", "stereo"); ("audioRate", "48k")]
                    None
                    [Element "spine" [] None titles]]]]]).

(** The [title] elements of the spine of a document. *)
Definition spine_titles (fcpxml : element) : list element :=
  descend ["library"; "event"; "project"; "sequence"; "spine"; "title"] fcpxml.

(** The four export operations with their parameters, for statements
    that hold of each of them. *)
Inductive export_op : Type :=
  | Srt
  | Ass (style_name : string)
  | Txt (include_timestamps : bool)
  | Fcpxml (video_duration : option float) (fps : float).

Definition error_prefix (op : export_op) : string :=
  match op with
  | Srt => "Error exporting SRT: "
  | Ass _ => "Error exporting ASS: "
  | Txt _ => "Error exporting TXT: "
  | Fcpxml _ _ => "Error exporting FCPXML: "
  end.

Section Fcpxml.

(** The serialisation by the Python library: [ET.tostring], then
    [minidom.parseString] and [toprettyxml(indent="  ", encoding='utf-8')].
    It raises on a tree that is not well-formed XML once printed. *)
Variable toprettyxml : element -> result string.

Definition export_fcpxml_body (segments : list segment) (output_path : string)
    (video_duration : option float) (fps : float) : IO unit :=
  fcpxml ← lift (fcpxml_tree segments video_duration fps);
  pretty_xml ← lift (toprettyxml fcpxml);
  with_open_w output_path (write output_path pretty_xml).

Definition export_fcpxml (segments : list segment) (output_path : string)
    (video_duration : option float) (fps : float) : IO bool :=
  guarded "Error exporting FCPXML: "
    (export_fcpxml_body segments output_path video_duration fps).

Definition export_body (op : export_op) (segments : list segment) (output_path : string)
  : IO unit :=
  match op with
  | Srt => export_srt_body segments output_path
  | Ass style_name => export_ass_body segments output_path style_name
  | Txt include_timestamps => export_txt_body segments output_path include_timestamps
  | Fcpxml video_duration fps => export_fcpxml_body segments output_path video_duration fps
  end.

Definition export (op : export_op) (segments : list segment) (output_path : string)
  : IO bool :=
  match op with
  | Srt => export_srt segments output_path
  | Ass style_name => export_ass segments output_path style_name
  | Txt include_timestamps => export_txt segments output_path include_timestamps
  | Fcpxml video_duration fps => export_fcpxml segments output_path video_duration fps
  end.

End Fcpxml.

(** ** Strings: [strip], [startswith], slicing off a prefix *)

Definition nonempty (s : string) : bool :=
  match s with
  | EmptyString => false
  | String _ _ => true
  end.

(** [Some rest] when [s] is [p] followed by [rest]: [s.startswith(p)] and
    [s[len(p):]]. *)
Fixpoint strip_prefix (p s : string) : option string :=
  match p, s with
  | EmptyString, _ => Some s
  | String a p', String b s' => if Ascii.eqb a b then strip_prefix p' s' else None
  | String _ _, EmptyString => None
  end.

Definition utf8 (bytes : list nat) : string :=
  string_of_list_ascii (map ascii_of_nat bytes).

(** The characters [str.strip()] removes, in UTF-8: U+0009 to U+000D,
    U+001C to U+0020, U+0085, U+00A0, U+1680, U+2000 to U+200A, U+2028,
    U+2029, U+202F, U+205F, U+3000. *)
Definition whitespace : list string :=
  map utf8
    [[9]; [10]; [11]; [12]; [13]; [28]; [29]; [30]; [31]; [32];
     [194; 133]; [194; 160]; [225; 154; 128];
     [226; 128; 128]; [226; 128; 129]; [226; 128; 130]; [226; 128; 131];
     [226; 128; 132]; [226; 128; 133]; [226; 128; 134]; [226; 128; 135];
     [226; 128; 136]; [226; 128; 137]; [226; 128; 138];
     [226; 128; 168]; [226; 128; 169]; [226; 128; 175];
     [226; 129; 159]; [227; 128; 128]]%nat.

(** The rest of [s] after one leading item of [ws], if it starts with one. *)
Fixpoint strip_one (ws : list string) (s : string) : option string :=
  match ws with
  | [] => None
  | w :: ws' =>
    match strip_prefix w s with
    | Some rest => Some rest
    | None => strip_one ws' s
    end
  end.

Fixpoint lstrip_with (ws : list string) (fuel : nat) (s : string) : string :=
  match fuel with
  | O => s
  | S fuel' =>
    match strip_one ws s with
    | Some rest => lstrip_with ws fuel' rest
    | None => s
    end
  end.

Definition lstrip (s : string) : string :=
  lstrip_with whitespace (String.length s) s.

Definition rstrip (s : string) : string :=
  String.rev (lstrip_with (map String.rev whitespace) (String.length s) (String.rev s)).

(** [s.strip()] *)
Definition strip (s : string) : string := rstrip (lstrip s).

(** ** The translation layers of [StyleProcessor] *)

(** The state of a [StyleProcessor] that the translation layers use:
    [s2t_converter] is [OpenCC('s2hk')] or [None] when OpenCC is not
    installed, [translation_model] is the MarianMT model with its
    [translate] method, [translation_cache] the dictionary of finished
    translations. *)
Record StyleProcessor : Type := {
  s2t_converter : option (string -> string);
  translation_model : string -> result string;
  translation_cache : gmap string string
}.

Definition cache_store (key value : string) (self : StyleProcessor) : StyleProcessor :=
  {| s2t_converter := s2t_converter self;
     translation_model := translation_model self;
     translation_cache := <[key := value]> (translation_cache self) |}.

(** [if self.s2t_converter: result = self.s2t_converter.convert(result)] *)
Definition to_traditional (self : StyleProcessor) (result : string) : string :=
  match s2t_converter self with
  | Some convert => convert result
  | None => result
  end.

Section Translation.

(** [str.lower] *)
Variable lower : string -> string.

Definition qwen_prefixes : list string := ["繁體中文："; "翻譯："; "結果："].

(** The loop that removes the common prefixes of an answer. *)
Definition remove_prefixes (result : string) : string :=
  fold_left
    (fun result prefix =>
       match strip_prefix prefix result with
       | Some rest => strip rest
       | None => result
       end)
    qwen_prefixes result.

(** Layer 2 of [_translate_with_ai]: what is done with the answer
    [result] of the Qwen model for the phrase [text].  [Some] is the
    returned translation; with [None] the method goes on to the next
    layer. *)
Definition _translate_with_ai_layer2 (self : StyleProcessor) (text result : string)
  : option string * StyleProcessor :=
  if nonempty result then
    let result := remove_prefixes (strip result) in
    if nonempty result && negb (String.eqb result text) then
      let result := to_traditional self result in
      (Some result, cache_store (lower text) result self)
    else (None, self)
  else (None, self).

(** Layer 3 of [_translate_with_ai]: the MarianMT model.  [Some] is the
    returned translation; with [None] the method goes on. *)
Definition _translate_with_ai_layer3 (self : StyleProcessor) (text : string)
  : result (option string * StyleProcessor) :=
  result ← translation_model self text;
  if nonempty result && nonempty (strip result) && negb (String.eqb result text) then
    let result := to_traditional self result in
    Ok (Some result, cache_store (lower text) result self)
  else Ok (None, self).

End Translation.

(** ** Whisper's initial prompt *)

Definition base_prompt : string :=
  "以下係廣東話對白，請用粵語口語字幕：佢、喺、睇、嘅、咁、啲、咗、嚟、冇、諗、唔、咩、乜、點、邊、噉、嗰、呢、哋、咪、囉、喎、啦、㗎、吖。".

(** [config.get(key, default)] *)
Definition config_get (config : gmap string string) (key default : string) : string :=
  match config !! key with
  | Some v => v
  | None => default
  end.

(** A call of [asr.transcribe(audio_path, language=..., initial_prompt=...)]. *)
Record transcribe_call : Type := {
  call_audio_path : string;
  call_language : string;
  call_initial_prompt : option string
}.

(** [SubtitlePipelineV2]: the call of Whisper. *)
Definition pipeline_transcribe (config : gmap string string) (audio_path : string)
  : transcribe_call :=
  let custom_prompt := config_get config "whisper_custom_prompt" EmptyString in
  let initial_prompt :=
    if nonempty custom_prompt
    then Some (base_prompt +:+ "用戶指定詞彙：" +:+ custom_prompt +:+ "。")
    else None in
  {| call_audio_path := audio_path; call_language := "yue";
     call_initial_prompt := initial_prompt |}.

(** [TranscribeWorker]: the call of Whisper. *)
Definition worker_transcribe (config : gmap string string) (audio_path : string)
  : transcribe_call :=
  let custom_prompt := config_get config "whisper_custom_prompt" EmptyString in
  let initial_prompt :=
    if nonempty custom_prompt
    then Some (base_prompt +:+ "用戶指定詞彙：" +:+ custom_prompt +:+ "。")
    else None in
  {| call_audio_path := audio_path; call_language := "yue";
     call_initial_prompt := initial_prompt |}.

Fixpoint concat_all (lines : list string) : string :=
  match lines with
  | [] => EmptyString
  | line :: rest => line +:+ concat_all rest
  end.

(** ** Sample values for the examples *)

(** A stand-in for the library serialiser: the tree printed without
    declaration, escaping or indentation. *)
Fixpoint compact_xml (el : element) : string :=
  match el with
  | Element tag attrib text children =>
    "<" +:+ tag
    +:+ concat_all (map (fun '(k, v) => " " +:+ k +:+ "='" +:+ v +:+ "'") attrib)
    +:+ ">" +:+ default EmptyString text
    +:+ concat_all (map compact_xml children)
    +:+ "</" +:+ tag +:+ ">"
  end.

Definition sample_serialiser (el : element) : result string := Ok (compact_xml el).

(** The segment of the specification's examples: from 1.5 s to 3.25 s. *)
Definition sample_segment (text : string) : segment :=
  {| seg_start := PyFloat.lit 15 1; seg_end := PyFloat.lit 325 2; seg_text := text |}.

(** A world without I/O errors. *)
Definition quiet_world (fs : gmap string string) (out : list (string * exn)) : World :=
  {| files := fs; io_script := []; stdout := out |}.

(** A world in which the file exists already and calls to the operating
    system are scripted. *)
Definition busy_world : World :=
  {| files := {["out.srt" := "old content"]};
     io_script := [true; true; true; true; true; true];
     stdout := [("Error exporting TXT: ", OSError)] |}.

(** A segment of no duration between two others, at 30 frames a second. *)
Definition instant_segment : segment :=
  {| seg_start := PyFloat.lit 15 1; seg_end := PyFloat.lit 15 1; seg_text := "now" |}.

(** [str.lower] on the letters A to Z; other bytes are kept. *)
Definition ascii_lower (s : string) : string :=
  string_of_list_ascii
    (map (fun a => let n := nat_of_ascii a in
                   if (65 <=? n)%nat && (n <=? 90)%nat then ascii_of_nat (n + 32) else a)
         (list_ascii_of_string s)).

Fixpoint replace_fuel (fuel : nat) (old new s : string) : string :=
  match fuel with
  | O => s
  | S fuel' =>
    match strip_prefix old s with
    | Some rest => new +:+ replace_fuel fuel' old new rest
    | None =>
      match s with
      | EmptyString => EmptyString
      | String a s' => String a (replace_fuel fuel' old new s')
      end
    end
  end.

(** One entry of the table of OpenCC's [s2hk] conversion, for the
    examples: 软 becomes 軟. *)
Definition sample_s2hk (s : string) : string :=
  replace_fuel (String.length s) "软" "軟" s.

(** A processor whose MarianMT model answers 软件 to every phrase. *)
Definition sample_processor (converter : option (string -> string)) : StyleProcessor :=
  {| s2t_converter := converter;
     translation_model := fun _ => Ok "软件";
     translation_cache := ∅ |}.

(** ** What a successful export leaves in the file *)

(** The texts of all items, one after the other; an item that raises
    makes the whole raise. *)
Fixpoint join_all {A : Type} (g : A -> result string) (l : list A) : result string :=
  match l with
  | [] => Ok EmptyString
  | x :: l' => t ← g x; ts ← join_all g l'; Ok (t +:+ ts)
  end.

Definition srt_entry (entry : Z * segment) : result string :=
  let '(i, seg) := entry in
  start_time ← _format_srt_time (seg_start seg);
  end_time ← _format_srt_time (seg_end seg);
  Ok (str_int i +:+ LF +:+ start_time +:+ " --> " +:+ end_time +:+ LF
        +:+ seg_text seg +:+ LF +:+ LF).

Definition srt_text (segments : list segment) : result string :=
  join_all srt_entry (enumerate 1 segments).

Definition ass_header (style_name : string) : string :=
  "[Script Info]" +:+ LF
  +:+ "Title: Canto-beats Export" +:+ LF
  +:+ "ScriptType: v4.00+" +:+ LF
  +:+ "Collisions: Normal" +:+ LF
  +:+ "PlayDepth: 0" +:+ LF +:+ LF
  +:+ "[V4+ Styles]" +:+ LF
  +:+ "Format: Name, Fontname, Fontsize, PrimaryColour, SecondaryColour, OutlineColour, BackColour, Bold, Italic, Underline, StrikeOut, ScaleX, ScaleY, Spacing, Angle, BorderStyle, Outline, Shadow, Alignment, MarginL, MarginR, MarginV, Encoding" +:+ LF
  +:+ "Style: " +:+ style_name
  +:+ ",Arial,20,&H00FFFFFF,&H000000FF,&H00000000,&H00000000,0,0,0,0,100,100,0,0,1,2,2,2,10,10,10,1"
  +:+ LF +:+ LF
  +:+ "[Events]" +:+ LF
  +:+ "Format: Layer, Start, End, Style, Name, MarginL, MarginR, MarginV, Effect, Text" +:+ LF.

Definition dialogue_line (style_name : string) (seg : segment) : result string :=
  start_time ← _format_ass_time (seg_start seg);
  end_time ← _format_ass_time (seg_end seg);
  Ok ("Dialogue: 0," +:+ start_time +:+ "," +:+ end_time +:+ "," +:+ style_name
        +:+ ",,0,0,0,," +:+ replace_char "010" "\N" (seg_text seg) +:+ LF).

Definition ass_text (style_name : string) (segments : list segment) : result string :=
  events ← join_all (dialogue_line style_name) segments;
  Ok (ass_header style_name +:+ events).

Definition txt_line (include_timestamps : bool) (seg : segment) : result string :=
  Ok (if include_timestamps
      then "[" +:+ format_2f (seg_start seg) +:+ "s - " +:+ format_2f (seg_end seg)
           +:+ "s]" +:+ " " +:+ seg_text seg +:+ LF
      else seg_text seg +:+ LF).

Definition txt_text (include_timestamps : bool) (segments : list segment) : result string :=
  join_all (txt_line include_timestamps) segments.

Definition export_text (toprettyxml : element -> result string) (op : export_op)
    (segments : list segment) : result string :=
  match op with
  | Srt => srt_text segments
  | Ass style_name => ass_text style_name segments
  | Txt include_timestamps => txt_text include_timestamps segments
  | Fcpxml video_duration fps =>
    fcpxml ← fcpxml_tree segments video_duration fps; toprettyxml fcpxml
  end.

(** The number of occurrences of a character. *)
Fixpoint count_char (c : ascii) (s : string) : nat :=
  match s with
  | EmptyString => O
  | String a s' => (if Ascii.eqb a c then 1 else 0) + count_char c s'
  end.

(** [p] run on the file at [path] appends the text [r] to it, or fails
    when [r] raises; without I/O errors it fails only then. *)
Definition emits (p : IO unit) (path : string) (r : result string) : Prop :=
  (forall w c w',
      files w !! path = Some c -> p w = (Ok tt, w') ->
      exists t, r = Ok t /\ files w' = <[path := c +:+ t]> (files w)
                /\ stdout w' = stdout w) /\
  (forall w c t,
      files w !! path = Some c -> io_script w = [] -> r = Ok t ->
      p w = (Ok tt, {| files := <[path := c +:+ t]> (files w);
                       io_script := []; stdout := stdout w |})).

(** ** Relations between the input and what is written *)

(** [line] is the Dialogue line of [seg]: layer 0, the two timecodes, the
    style, empty name, zero margins, empty effect, and the text in which
    every line feed has become [\N]; it holds one line feed, its last
    character, when the style name holds none. *)
Definition dialogue_of (style_name : string) (seg : segment) (line : string) : Prop :=
  exists start_time end_time text,
    _format_ass_time (seg_start seg) = Ok start_time
    /\ _format_ass_time (seg_end seg) = Ok end_time
    /\ list_ascii_of_string text =
       flat_map (fun a => if Ascii.eqb a "010" then ["\"; "N"]%char else [a])
                (list_ascii_of_string (seg_text seg))
    /\ count_char "010" text = O
    /\ line = "Dialogue: 0," +:+ start_time +:+ "," +:+ end_time +:+ "," +:+ style_name
              +:+ ",,0,0,0,," +:+ text +:+ LF
    /\ (count_char "010" style_name = O -> count_char "010" line = 1%nat).

(** [title] carries the timing of [seg]: its offset is [int(start * fps)]
    frames and its duration [max(1, int((end - start) * fps))] frames,
    both over [int(fps)] and written [<frames>/<fps>s]; the duration is
    at least one frame, and [1/<fps>s] when the span is shorter than a
    frame. *)
Definition title_of (fps : float) (fps_int : Z) (seg : segment) (title : element) : Prop :=
  exists start_frames span_frames : Z,
    PyFloat.to_int (PyFloat.mul (seg_start seg) fps) = Ok start_frames
    /\ PyFloat.to_int (PyFloat.mul (PyFloat.sub (seg_end seg) (seg_start seg)) fps)
       = Ok span_frames
    /\ tag_of title = "title"
    /\ attribute "offset" title
       = Some (str_int start_frames +:+ "/" +:+ str_int fps_int +:+ "s")
    /\ attribute "duration" title
       = Some (str_int (Z.max 1 span_frames) +:+ "/" +:+ str_int fps_int +:+ "s")
    /\ 1 <= Z.max 1 span_frames
    /\ (span_frames < 1 ->
        attribute "duration" title = Some ("1/" +:+ str_int fps_int +:+ "s")).

(** ** Further relations on programs and values *)

(** However [p] ends, it has printed nothing and no file other than the
    one at [path] has changed. *)
Definition confined {A : Type} (p : IO A) (path : string) : Prop :=
  forall w r w',
    p w = (r, w') ->
    stdout w' = stdout w /\ forall q, q <> path -> files w' !! q = files w !! q.

(** A float that is a number: neither NaN nor an infinity. *)
Definition finite (x : float) : bool :=
  match x with
  | S754_nan | S754_infinity _ => false
  | S754_zero _ | S754_finite _ _ _ => true
  end.

(** * Properties *)

(** ** Strings *)

Lemma append_cons (a : ascii) (s1 s2 : string) :
  String a s1 +:+ s2 = String a (s1 +:+ s2).
Proof. reflexivity. Qed.

Lemma append_nil_l (s : string) : EmptyString +:+ s = s.
Proof. reflexivity. Qed.

Lemma append_nil_r (s : string) : s +:+ EmptyString = s.
Proof.
  induction s as [|a s IH]; [reflexivity |].
  rewrite append_cons. f_equal. exact IH.
Qed.

Lemma append_assoc (s1 s2 s3 : string) : (s1 +:+ s2) +:+ s3 = s1 +:+ (s2 +:+ s3).
Proof.
  induction s1 as [|a s1 IH]; [reflexivity |].
  rewrite !append_cons. f_equal. exact IH.
Qed.

Lemma count_char_app (c : ascii) (s1 s2 : string) :
  count_char c (s1 +:+ s2) = (count_char c s1 + count_char c s2)%nat.
Proof.
  induction s1 as [|a s1 IH]; [reflexivity |].
  rewrite append_cons. simpl. rewrite IH. lia.
Qed.

(** ** The I/O monad *)

Lemma bind_Ok_inv {A B : Type} (m : IO A) (k : A -> IO B) (w w' : World) (b : B) :
  (m ≫= k) w = (Ok b, w') -> exists a w1, m w = (Ok a, w1) /\ k a w1 = (Ok b, w').
Proof.
  unfold mbind, IO_bind. destruct (m w) as [[a|e] w1]; intros H.
  - exists a, w1. auto.
  - discriminate.
Qed.

Lemma bind_Ok {A B : Type} (m : IO A) (k : A -> IO B) (w w1 : World) (a : A) :
  m w = (Ok a, w1) -> (m ≫= k) w = k a w1.
Proof. unfold mbind, IO_bind. now intros ->. Qed.

Lemma syscall_Ok_inv (w w' : World) :
  syscall w = (Ok tt, w') -> files w' = files w /\ stdout w' = stdout w.
Proof.
  unfold syscall. destruct (io_script w) as [|[] script]; intros H; inversion H; auto.
Qed.

Lemma syscall_quiet (w : World) : io_script w = [] -> syscall w = (Ok tt, w).
Proof. unfold syscall. now intros ->. Qed.

Lemma write_Ok_inv (path s : string) (w w' : World) :
  write path s w = (Ok tt, w') ->
  files w' = <[path := content path w +:+ s]> (files w) /\ stdout w' = stdout w.
Proof.
  unfold write. intros H. apply bind_Ok_inv in H as ([] & w1 & H1 & H2).
  apply syscall_Ok_inv in H1 as [Hf Ho].
  unfold append_file, set_file, content in H2. inversion H2; subst; simpl.
  now rewrite Hf, Ho.
Qed.

Lemma write_quiet (path s : string) (w : World) :
  io_script w = [] ->
  write path s w =
  (Ok tt, {| files := <[path := content path w +:+ s]> (files w);
             io_script := []; stdout := stdout w |}).
Proof.
  intros Hs. unfold write. rewrite (bind_Ok _ _ w w tt) by now apply syscall_quiet.
  unfold append_file, set_file. now rewrite Hs.
Qed.

Lemma rbind_Ok_inv {A B : Type} (r : result A) (k : A -> result B) (b : B) :
  r ≫= k = Ok b -> exists a, r = Ok a /\ k a = Ok b.
Proof. destruct r as [a|e]; [now exists a | discriminate]. Qed.

(** ** Programs that append to one file *)

Lemma emits_ext (p : IO unit) (path : string) (r r' : result string) :
  emits p path r -> r = r' -> emits p path r'.
Proof. now intros H <-. Qed.

Lemma emits_skip (path : string) : emits (mret tt) path (Ok EmptyString).
Proof.
  split.
  - intros w c w' Hc H. inversion H; subst w'. exists EmptyString.
    rewrite append_nil_r, insert_id by exact Hc. auto.
  - intros [fs script out] c t Hc Hs Ht. simpl in *. inversion Ht; subst.
    rewrite append_nil_r, insert_id by exact Hc. reflexivity.
Qed.

Lemma emits_write (path s : string) : emits (write path s) path (Ok s).
Proof.
  split.
  - intros w c w' Hc H. apply write_Ok_inv in H as [Hf Ho].
    exists s. unfold content in Hf. rewrite Hc in Hf. auto.
  - intros w c t Hc Hs Ht. inversion Ht; subst t.
    rewrite write_quiet by exact Hs. unfold content. now rewrite Hc.
Qed.

Lemma emits_seq (p q : IO unit) (path : string) (r1 r2 : result string) :
  emits p path r1 -> emits q path r2 ->
  emits (p;; q) path (t1 ← r1; t2 ← r2; Ok (t1 +:+ t2)).
Proof.
  intros [P1 P2] [Q1 Q2]. split.
  - intros w c w' Hc H. apply bind_Ok_inv in H as ([] & w1 & Hp & Hq).
    destruct (P1 _ _ _ Hc Hp) as (t1 & -> & Hf1 & Ho1).
    assert (Hc1 : files w1 !! path = Some (c +:+ t1))
      by (rewrite Hf1; apply lookup_insert_eq).
    destruct (Q1 _ _ _ Hc1 Hq) as (t2 & -> & Hf2 & Ho2).
    exists (t1 +:+ t2). split; [reflexivity |]. split; [| congruence].
    now rewrite Hf2, Hf1, insert_insert_eq, append_assoc.
  - intros w c t Hc Hs Ht.
    apply rbind_Ok_inv in Ht as (t1 & -> & Ht).
    apply rbind_Ok_inv in Ht as (t2 & -> & Ht). inversion Ht; subst t.
    rewrite (bind_Ok _ _ _ _ _ (P2 _ _ _ Hc Hs eq_refl)).
    rewrite (Q2 _ (c +:+ t1) t2); simpl; try reflexivity.
    + now rewrite insert_insert_eq, append_assoc.
    + apply lookup_insert_eq.
Qed.

Lemma emits_lift_bind {A : Type} (r0 : result A) (k : A -> IO unit)
    (g : A -> result string) (path : string) :
  (forall a, r0 = Ok a -> emits (k a) path (g a)) ->
  emits (lift r0 ≫= k) path (r0 ≫= g).
Proof.
  intros Hk. split.
  - intros w c w' Hc H. apply bind_Ok_inv in H as (a & w1 & Hl & Hq).
    unfold lift in Hl. inversion Hl; subst.
    exact (proj1 (Hk a eq_refl) _ _ _ Hc Hq).
  - intros w c t Hc Hs Ht. apply rbind_Ok_inv in Ht as (a & -> & Ht).
    rewrite (bind_Ok _ _ w w a) by reflexivity.
    exact (proj2 (Hk a eq_refl) _ _ _ Hc Hs Ht).
Qed.

Lemma emits_for_each {A : Type} (body : A -> IO unit) (g : A -> result string)
    (path : string) (l : list A) :
  (forall x, emits (body x) path (g x)) ->
  emits (for_each body l) path (join_all g l).
Proof.
  intros Hbody. induction l as [|x l IH]; simpl.
  - apply emits_skip.
  - apply emits_seq; [apply Hbody | exact IH].
Qed.

Lemma with_open_w_sound (body : IO unit) (path : string) (r : result string)
    (w w' : World) :
  emits body path r ->
  with_open_w path body w = (Ok tt, w') ->
  exists t, r = Ok t /\ files w' = <[path := t]> (files w) /\ stdout w' = stdout w.
Proof.
  intros [B1 _] H. unfold with_open_w, open_w in H.
  apply bind_Ok_inv in H as ([] & w2 & Hopen & H).
  apply bind_Ok_inv in Hopen as ([] & w1 & Hsys & Hset).
  apply syscall_Ok_inv in Hsys as [Hf1 Ho1].
  unfold set_file in Hset. inversion Hset; subst w2; clear Hset.
  unfold finally_close in H.
  destruct (body _) as [[[]|e] w3] eqn:Hbody.
  - apply bind_Ok_inv in H as ([] & w4 & Hclose & Hret).
    inversion Hret; subst w4. apply syscall_Ok_inv in Hclose as [Hf4 Ho4].
    destruct (B1 _ EmptyString _ (lookup_insert_eq _ _ _) Hbody) as (t & -> & Hf3 & Ho3).
    exists t. split; [reflexivity |]. simpl in *.
    rewrite Hf4, Hf3, insert_insert_eq, Hf1, Ho4, Ho3, Ho1. auto.
  - destruct (close w3) as [[[]|e'] w4]; discriminate.
Qed.

Lemma with_open_w_quiet (body : IO unit) (path : string) (r : result string)
    (w : World) (t : string) :
  emits body path r -> io_script w = [] -> r = Ok t ->
  with_open_w path body w =
  (Ok tt, {| files := <[path := t]> (files w); io_script := []; stdout := stdout w |}).
Proof.
  intros [_ B2] Hs Ht. unfold with_open_w, open_w.
  set (w1 := {| files := <[path := EmptyString]> (files w);
                io_script := []; stdout := stdout w |}).
  rewrite (bind_Ok _ _ w w1 tt).
  - unfold finally_close.
    rewrite (B2 w1 EmptyString t (lookup_insert_eq _ _ _) eq_refl Ht). simpl.
    now rewrite insert_insert_eq.
  - rewrite (bind_Ok _ _ w w tt) by now apply syscall_quiet.
    unfold set_file. now rewrite Hs.
Qed.

Lemma guarded_eq (prefix : string) (body : IO unit) (w : World) :
  guarded prefix body w =
  match body w with
  | (Ok _, w') => (Ok true, w')
  | (Raise e, w') =>
    (Ok false, {| files := files w'; io_script := io_script w';
                  stdout := stdout w' ++ [(prefix, e)] |})
  end.
Proof.
  unfold guarded, try_except, mbind, IO_bind.
  destruct (body w) as [[[]|e] w']; reflexivity.
Qed.

Lemma guarded_true_inv (prefix : string) (body : IO unit) (w w' : World) :
  guarded prefix body w = (Ok true, w') -> body w = (Ok tt, w').
Proof.
  rewrite guarded_eq. destruct (body w) as [[[]|e] w1]; intros H; inversion H.
  reflexivity.
Qed.

Lemma guarded_with_open_quiet (prefix : string) (body : IO unit) (path : string)
    (r : result string) (w : World) (t : string) :
  emits body path r -> io_script w = [] -> r = Ok t ->
  guarded prefix (with_open_w path body) w =
  (Ok true, {| files := <[path := t]> (files w); io_script := []; stdout := stdout w |}).
Proof.
  intros Hb Hs Ht. rewrite guarded_eq.
  now rewrite (with_open_w_quiet _ _ _ _ t Hb Hs Ht).
Qed.

(** ** The text each export method writes *)

Lemma srt_body_emits (path : string) (segments : list segment) :
  emits
    (for_each
       (fun '(i, seg) =>
          write path (str_int i +:+ LF);;
          start_time ← lift (_format_srt_time (seg_start seg));
          end_time ← lift (_format_srt_time (seg_end seg));
          write path (start_time +:+ " --> " +:+ end_time +:+ LF);;
          write path (seg_text seg +:+ LF);;
          write path LF)
       (enumerate 1 segments))
    path (srt_text segments).
Proof.
  apply emits_for_each. intros [i seg].
  eapply emits_ext.
  - apply emits_seq; [apply emits_write |].
    apply emits_lift_bind; intros start_time _.
    apply emits_lift_bind; intros end_time _.
    apply emits_seq; [apply emits_write |].
    apply emits_seq; apply emits_write.
  - unfold srt_entry.
    destruct (_format_srt_time (seg_start seg)) as [st|]; [| reflexivity].
    destruct (_format_srt_time (seg_end seg)) as [en|]; [| reflexivity].
    simpl. now rewrite !append_assoc.
Qed.

Lemma ass_body_emits (path style_name : string) (segments : list segment) :
  emits
    (write path ("[Script Info]" +:+ LF);;
     write path ("Title: Canto-beats Export" +:+ LF);;
     write path ("ScriptType: v4.00+" +:+ LF);;
     write path ("Collisions: Normal" +:+ LF);;
     write path ("PlayDepth: 0" +:+ LF +:+ LF);;
     write path ("[V4+ Styles]" +:+ LF);;
     write path
       ("Format: Name, Fontname, Fontsize, PrimaryColour, SecondaryColour, "
        +:+ "OutlineColour, BackColour, Bold, Italic, Underline, StrikeOut, "
        +:+ "ScaleX, ScaleY, Spacing, Angle, BorderStyle, Outline, Shadow, "
        +:+ "Alignment, MarginL, MarginR, MarginV, Encoding" +:+ LF);;
     write path
       ("Style: " +:+ style_name +:+ ",Arial,20,&H00FFFFFF,&H000000FF,&H00000000,"
        +:+ "&H00000000,0,0,0,0,100,100,0,0,1,2,2,2,10,10,10,1" +:+ LF +:+ LF);;
     write path ("[Events]" +:+ LF);;
     write path
       ("Format: Layer, Start, End, Style, Name, MarginL, MarginR, MarginV, Effect, Text"
        +:+ LF);;
     for_each
       (fun seg =>
          start_time ← lift (_format_ass_time (seg_start seg));
          end_time ← lift (_format_ass_time (seg_end seg));
          let text := replace_char "010" "\N" (seg_text seg) in
          write path
            ("Dialogue: 0," +:+ start_time +:+ "," +:+ end_time +:+ "," +:+ style_name
             +:+ ",,0,0,0,," +:+ text +:+ LF))
       segments)
    path (ass_text style_name segments).
Proof.
  eapply emits_ext.
  - do 10 (apply emits_seq; [apply emits_write |]).
    apply (emits_for_each _ (dialogue_line style_name)). intros seg.
    apply emits_lift_bind; intros start_time _.
    apply emits_lift_bind; intros end_time _.
    apply emits_write.
  - unfold ass_text.
    destruct (join_all (dialogue_line style_name) segments) as [events|]; [| reflexivity].
    simpl. unfold ass_header. f_equal.
    rewrite !append_assoc. reflexivity.
Qed.

Lemma txt_body_emits (path : string) (include_timestamps : bool)
    (segments : list segment) :
  emits
    (for_each
       (fun seg =>
          if include_timestamps then
            let timestamp :=
              "[" +:+ format_2f (seg_start seg) +:+ "s - "
              +:+ format_2f (seg_end seg) +:+ "s]" in
            write path (timestamp +:+ " " +:+ seg_text seg +:+ LF)
          else
            write path (seg_text seg +:+ LF))
       segments)
    path (txt_text include_timestamps segments).
Proof.
  apply emits_for_each. intros seg. unfold txt_line.
  destruct include_timestamps.
  - eapply emits_ext; [apply emits_write |]. now rewrite !append_assoc.
  - apply emits_write.
Qed.

Section ExportText.

Variable toprettyxml : element -> result string.

(** An export that returns [True] has left in the file the text of
    [export_text], whatever the file held before. *)
Lemma export_sound (op : export_op) (segments : list segment) (path : string)
    (w w' : World) :
  export toprettyxml op segments path w = (Ok true, w') ->
  exists t, export_text toprettyxml op segments = Ok t
            /\ files w' = <[path := t]> (files w) /\ stdout w' = stdout w.
Proof.
  destruct op as [|style_name|include_timestamps|video_duration fps]; simpl;
    intros H; apply guarded_true_inv in H.
  - exact (with_open_w_sound _ _ _ _ _ (srt_body_emits path segments) H).
  - exact (with_open_w_sound _ _ _ _ _ (ass_body_emits path style_name segments) H).
  - exact (with_open_w_sound _ _ _ _ _
             (txt_body_emits path include_timestamps segments) H).
  - unfold export_fcpxml_body in H.
    apply bind_Ok_inv in H as (fcpxml & w1 & Htree & H).
    apply bind_Ok_inv in H as (pretty_xml & w2 & Hxml & H).
    unfold lift in Htree, Hxml. inversion Htree; subst. inversion Hxml; subst.
    destruct (with_open_w_sound _ _ _ _ _ (emits_write path pretty_xml) H)
      as (t & Ht & Hf & Ho).
    inversion Ht; subst t. exists pretty_xml.
    rewrite H1. simpl. auto.
Qed.

(** Without I/O errors the export succeeds as soon as the text can be
    computed. *)
Lemma export_quiet (op : export_op) (segments : list segment) (path : string)
    (w : World) (t : string) :
  io_script w = [] ->
  export_text toprettyxml op segments = Ok t ->
  export toprettyxml op segments path w =
  (Ok true, {| files := <[path := t]> (files w); io_script := [];
               stdout := stdout w |}).
Proof.
  intros Hs Ht.
  destruct op as [|style_name|include_timestamps|video_duration fps].
  - exact (guarded_with_open_quiet _ _ _ _ _ t (srt_body_emits path segments) Hs Ht).
  - exact (guarded_with_open_quiet _ _ _ _ _ t
             (ass_body_emits path style_name segments) Hs Ht).
  - exact (guarded_with_open_quiet _ _ _ _ _ t
             (txt_body_emits path include_timestamps segments) Hs Ht).
  - apply rbind_Ok_inv in Ht as (fcpxml & Htree & Hxml).
    unfold export, export_fcpxml. rewrite guarded_eq.
    unfold export_fcpxml_body.
    rewrite (bind_Ok _ _ w w fcpxml) by (unfold lift; now rewrite Htree).
    rewrite (bind_Ok _ _ w w t) by (unfold lift; now rewrite Hxml).
    now rewrite (with_open_w_quiet _ _ _ _ t (emits_write path t) Hs eq_refl).
Qed.

End ExportText.

(** ** The timecodes of the segment from 1.5 s to 3.25 s *)

Lemma join_all_single {A : Type} (g : A -> result string) (x : A) :
  join_all g [x] = g x.
Proof.
  simpl. destruct (g x) as [t|e]; simpl; [| reflexivity].
  now rewrite append_nil_r.
Qed.

(** C3: for the segment {start: 1.5, end: 3.25}, [export_srt] writes the
    sequence number, then exactly the timecode line
    [00:00:01,500 --> 00:00:03,250], then the text and an empty line;
    both timecodes have their fields padded to 2, 2, 2 and 3 digits, with
    a comma before the milliseconds. *)
Theorem srt_timecode_line_exact (text path : string) (fs : gmap string string)
    (out : list (string * exn)) :
  _format_srt_time (PyFloat.lit 15 1) = Ok "00:00:01,500"
  /\ _format_srt_time (PyFloat.lit 325 2) = Ok "00:00:03,250"
  /\ export_srt [sample_segment text] path (quiet_world fs out) =
     (Ok true,
      quiet_world
        (<[path := "1" +:+ LF +:+ "00:00:01,500 --> 00:00:03,250" +:+ LF
                   +:+ text +:+ LF +:+ LF]> fs)
        out).
Proof.
  assert (H1 : _format_srt_time (PyFloat.lit 15 1) = Ok "00:00:01,500")
    by (vm_compute; reflexivity).
  assert (H2 : _format_srt_time (PyFloat.lit 325 2) = Ok "00:00:03,250")
    by (vm_compute; reflexivity).
  split; [exact H1 |]. split; [exact H2 |].
  apply (export_quiet sample_serialiser Srt); [reflexivity |].
  unfold export_text, srt_text, enumerate. rewrite join_all_single.
  unfold srt_entry, sample_segment; cbn [seg_start seg_end seg_text].
  rewrite H1, H2. reflexivity.
Qed.

(** C4: for the same segment the ASS timecodes are exactly [0:00:01.50]
    and [0:00:03.25] (hours without padding, a period before the
    centiseconds), and [export_ass] writes them in the Dialogue line. *)
Theorem ass_timecodes_exact (text path style_name : string) (fs : gmap string string)
    (out : list (string * exn)) :
  _format_ass_time (PyFloat.lit 15 1) = Ok "0:00:01.50"
  /\ _format_ass_time (PyFloat.lit 325 2) = Ok "0:00:03.25"
  /\ export_ass [sample_segment text] path style_name (quiet_world fs out) =
     (Ok true,
      quiet_world
        (<[path := ass_header style_name
                   +:+ "Dialogue: 0," +:+ "0:00:01.50" +:+ "," +:+ "0:00:03.25" +:+ ","
                   +:+ style_name +:+ ",,0,0,0,,"
                   +:+ replace_char "010" "\N" text +:+ LF]> fs)
        out).
Proof.
  assert (H1 : _format_ass_time (PyFloat.lit 15 1) = Ok "0:00:01.50")
    by (vm_compute; reflexivity).
  assert (H2 : _format_ass_time (PyFloat.lit 325 2) = Ok "0:00:03.25")
    by (vm_compute; reflexivity).
  split; [exact H1 |]. split; [exact H2 |].
  apply (export_quiet sample_serialiser (Ass style_name)); [reflexivity |].
  unfold export_text, ass_text. rewrite join_all_single.
  unfold dialogue_line, sample_segment; cbn [seg_start seg_end seg_text].
  rewrite H1, H2. reflexivity.
Qed.

(** ** Exports neither raise nor depend on the state of the world *)

Section ExportContract.

Variable toprettyxml : element -> result string.

(** C5: an export method returns [True] when its body runs to the end
    and [False], after printing the error, when the body raises: the
    exception is caught, never propagated.  So of two exports called
    one after the other the second is always attempted, on the world
    the first has left, whatever the first returned. *)
Theorem export_catches_errors (op op2 : export_op) (segments segments2 : list segment)
    (path path2 : string) (w : World) :
  export toprettyxml op segments path w =
    match export_body toprettyxml op segments path w with
    | (Ok _, w') => (Ok true, w')
    | (Raise e, w') =>
      (Ok false, {| files := files w'; io_script := io_script w';
                    stdout := stdout w' ++ [(error_prefix op, e)] |})
    end
  /\ exists (b1 b2 : bool) (w1 w2 : World),
      export toprettyxml op segments path w = (Ok b1, w1)
      /\ export toprettyxml op2 segments2 path2 w1 = (Ok b2, w2)
      /\ (b1 ← export toprettyxml op segments path;
          b2 ← export toprettyxml op2 segments2 path2;
          mret (b1, b2)) w = (Ok (b1, b2), w2).
Proof.
  assert (Heq : forall o segs p w0,
             export toprettyxml o segs p w0 =
             match export_body toprettyxml o segs p w0 with
             | (Ok _, w') => (Ok true, w')
             | (Raise e, w') =>
               (Ok false, {| files := files w'; io_script := io_script w';
                             stdout := stdout w' ++ [(error_prefix o, e)] |})
             end)
    by (intros [| | |] segs p w0; apply guarded_eq).
  assert (Hok : forall o segs p w0, exists b w',
               export toprettyxml o segs p w0 = (Ok b, w')).
  { intros o segs p w0. rewrite Heq.
    destruct (export_body toprettyxml o segs p w0) as [[[]|e] w']; eauto. }
  split; [apply Heq |].
  destruct (Hok op segments path w) as (b1 & w1 & H1).
  destruct (Hok op2 segments2 path2 w1) as (b2 & w2 & H2).
  exists b1, b2, w1, w2. split; [exact H1 |]. split; [exact H2 |].
  rewrite (bind_Ok _ _ _ _ _ H1), (bind_Ok _ _ _ _ _ H2). reflexivity.
Qed.

(** C9: two successful runs of the same export on the same segments
    with the same parameters leave the same content in the file,
    whatever the two worlds they start from. *)
Theorem export_deterministic (op : export_op) (segments : list segment) (path : string)
    (w1 w2 w1' w2' : World) :
  export toprettyxml op segments path w1 = (Ok true, w1') ->
  export toprettyxml op segments path w2 = (Ok true, w2') ->
  files w1' !! path = files w2' !! path.
Proof.
  intros H1 H2.
  apply export_sound in H1 as (t1 & Ht1 & Hf1 & _).
  apply export_sound in H2 as (t2 & Ht2 & Hf2 & _).
  rewrite Hf1, Hf2, !lookup_insert_eq. congruence.
Qed.

End ExportContract.

Lemma export_deterministic_witness :
  let run w := export sample_serialiser Srt [sample_segment "hello"] "out.srt" w in
  run (quiet_world ∅ []) = (Ok true, snd (run (quiet_world ∅ [])))
  /\ run busy_world = (Ok true, snd (run busy_world))
  /\ files (snd (run (quiet_world ∅ []))) !! "out.srt"
     = files (snd (run busy_world)) !! "out.srt".
Proof.
  intros run.
  assert (H1 : run (quiet_world ∅ []) = (Ok true, snd (run (quiet_world ∅ []))))
    by (vm_compute; reflexivity).
  assert (H2 : run busy_world = (Ok true, snd (run busy_world)))
    by (vm_compute; reflexivity).
  split; [exact H1 |]. split; [exact H2 |].
  exact (export_deterministic sample_serialiser Srt [sample_segment "hello"] "out.srt"
           _ _ _ _ H1 H2).
Defined.

(** A timestamp that is not a number makes the SRT export return [False];
    the ASS export called next on sound segments returns [True]. *)
Example failed_export_then_next :
  let nan_segment := {| seg_start := S754_nan; seg_end := PyFloat.lit 325 2;
                        seg_text := "x" |} in
  let r := (b1 ← export_srt [nan_segment] "a.srt";
            b2 ← export_ass [sample_segment "y"] "a.ass" "Default";
            mret (b1, b2)) (quiet_world ∅ []) in
  fst r = Ok (false, true)
  /\ stdout (snd r) = [("Error exporting SRT: ", ValueError)]
  /\ is_Some (files (snd r) !! "a.ass").
Proof. vm_compute. split; [reflexivity |]. split; [reflexivity | eauto]. Qed.

(** ** The events of an ASS file *)

Lemma list_ascii_app (s1 s2 : string) :
  list_ascii_of_string (s1 +:+ s2) = list_ascii_of_string s1 ++ list_ascii_of_string s2.
Proof.
  induction s1 as [|a s1 IH]; [reflexivity |].
  rewrite append_cons. simpl. now rewrite IH.
Qed.

Lemma replace_char_flat_map (c : ascii) (new s : string) :
  list_ascii_of_string (replace_char c new s) =
  flat_map (fun a => if Ascii.eqb a c then list_ascii_of_string new else [a])
           (list_ascii_of_string s).
Proof.
  induction s as [|a s IH]; [reflexivity |].
  simpl. destruct (Ascii.eqb a c).
  - now rewrite list_ascii_app, IH.
  - simpl. now rewrite IH.
Qed.

Lemma replace_char_count (c : ascii) (new s : string) :
  count_char c new = O -> count_char c (replace_char c new s) = O.
Proof.
  intros Hnew. induction s as [|a s IH]; [reflexivity |].
  simpl. destruct (Ascii.eqb a c) eqn:E.
  - now rewrite count_char_app, Hnew, IH.
  - simpl. now rewrite E, IH.
Qed.

Lemma digits_no_LF (n : Z) : count_char "010" (digits_of n) = O.
Proof.
  unfold digits_of. generalize (N.to_uint (Z.to_N (Z.abs n))) as d.
  induction d as [|d IH|d IH|d IH|d IH|d IH|d IH|d IH|d IH|d IH|d IH];
    simpl; auto.
Qed.

Lemma zeros_no_LF (k : nat) : count_char "010" (zeros k) = O.
Proof. induction k as [|k IH]; simpl; auto. Qed.

Lemma str_int_no_LF (n : Z) : count_char "010" (str_int n) = O.
Proof.
  unfold str_int. destruct (n <? 0); rewrite ?count_char_app, digits_no_LF; reflexivity.
Qed.

Lemma format_0d_no_LF (width : nat) (n : Z) : count_char "010" (format_0d width n) = O.
Proof.
  unfold format_0d.
  destruct (n <? 0); rewrite ?count_char_app, zeros_no_LF, digits_no_LF; reflexivity.
Qed.

Lemma ass_time_no_LF (seconds : float) (s : string) :
  _format_ass_time seconds = Ok s -> count_char "010" s = O.
Proof.
  unfold _format_ass_time. intros H.
  apply rbind_Ok_inv in H as (c & _ & H).
  apply rbind_Ok_inv in H as (centisecs & _ & H).
  inversion H; subst s.
  rewrite !count_char_app, str_int_no_LF, !format_0d_no_LF. reflexivity.
Qed.

Lemma join_all_lines {A : Type} (g : A -> result string) (l : list A) (t : string) :
  join_all g l = Ok t ->
  exists lines, Forall2 (fun x line => g x = Ok line) l lines /\ t = concat_all lines.
Proof.
  revert t. induction l as [|x l IH]; simpl; intros t H.
  - inversion H. exists []. split; [constructor | reflexivity].
  - apply rbind_Ok_inv in H as (line & Hline & H).
    apply rbind_Ok_inv in H as (ts & Hts & H). inversion H; subst t.
    destruct (IH ts Hts) as (lines & Hall & ->).
    exists (line :: lines). split; [now constructor | reflexivity].
Qed.

Lemma dialogue_line_spec (style_name : string) (seg : segment) (line : string) :
  dialogue_line style_name seg = Ok line -> dialogue_of style_name seg line.
Proof.
  unfold dialogue_line. intros H.
  apply rbind_Ok_inv in H as (start_time & Hs & H).
  apply rbind_Ok_inv in H as (end_time & He & H). inversion H; subst line.
  exists start_time, end_time, (replace_char "010" "\N" (seg_text seg)).
  split; [exact Hs |]. split; [exact He |].
  split; [apply replace_char_flat_map |].
  split; [now apply replace_char_count |].
  split; [reflexivity |].
  intros Hstyle.
  rewrite !count_char_app, (ass_time_no_LF _ _ Hs), (ass_time_no_LF _ _ He), Hstyle.
  rewrite replace_char_count by reflexivity. reflexivity.
Qed.

(** C6: after a successful [export_ass] the file holds the fixed header
    ([Script Info], then [V4+ Styles] with the one style definition, then
    the head of [Events]) followed by one Dialogue line per segment, in
    the order of the segments, each of the form
    [Dialogue: 0,<start>,<end>,<style>,,0,0,0,,<text>] with the line feeds
    of the text replaced by [\N]. *)
Theorem ass_file_structure (segments : list segment) (path style_name : string)
    (w w' : World) :
  export_ass segments path style_name w = (Ok true, w') ->
  exists lines,
    files w' !! path = Some (ass_header style_name +:+ concat_all lines)
    /\ Forall2 (dialogue_of style_name) segments lines.
Proof.
  intros H.
  apply (export_sound sample_serialiser (Ass style_name)) in H as (t & Ht & Hf & _).
  simpl in Ht. unfold ass_text in Ht.
  apply rbind_Ok_inv in Ht as (events & Hev & Ht). inversion Ht; subst t.
  apply join_all_lines in Hev as (lines & Hall & ->).
  exists lines. split.
  - rewrite Hf. apply lookup_insert_eq.
  - eapply Forall2_impl; [exact Hall |]. intros seg line. apply dialogue_line_spec.
Qed.

Lemma ass_file_structure_witness :
  let segments := [sample_segment ("first" +:+ LF +:+ "second"); sample_segment "third"] in
  let run := export_ass segments "out.ass" "Default" busy_world in
  run = (Ok true, snd run)
  /\ exists lines,
      files (snd run) !! "out.ass" = Some (ass_header "Default" +:+ concat_all lines)
      /\ Forall2 (dialogue_of "Default") segments lines.
Proof.
  intros segments run.
  assert (H : run = (Ok true, snd run)) by (vm_compute; reflexivity).
  split; [exact H |].
  exact (ass_file_structure segments "out.ass" "Default" busy_world (snd run) H).
Defined.

(** ** Truncation *)

Lemma to_int_truncates (x : float) (z : Z) :
  PyFloat.to_int x = Ok z ->
  z = Z.quot (PyFloat.exact_num x) (PyFloat.exact_den x).
Proof.
  destruct x as [s|s| |s m e]; simpl; intros H; inversion H; try reflexivity.
  unfold PyFloat.trunc_finite. destruct e as [|p|p].
  - change (0 <=? 0) with true. cbv iota. now rewrite Z.quot_1_r, Z.mul_1_r.
  - change (0 <=? Z.pos p) with true. cbv iota.
    now rewrite Z.quot_1_r, Z.shiftl_mul_pow2 by lia.
  - change (0 <=? Z.neg p) with false. cbv iota.
    rewrite Z.shiftr_div_pow2 by lia. simpl Z.opp.
    assert (Hd : 0 < 2 ^ Z.pos p) by (apply Z.pow_pos_nonneg; lia).
    destruct s; simpl cond_Zopp.
    + change (Z.neg m) with (- Z.pos m).
      rewrite Z.quot_opp_l by lia. now rewrite Z.quot_div_nonneg by lia.
    + now rewrite Z.quot_div_nonneg by lia.
Qed.

(** C2: in a formatted timecode the sub-second field is
    [int((seconds - int(seconds)) * scale)], with scale 1000 for SRT and
    100 for ASS: the float product of the fractional part and the scale,
    cut to its integer part (the quotient toward zero of its exact
    value), not rounded to the nearest integer. *)
Theorem subsecond_field_truncated (fmt : timecode_format) (seconds : float) (s : string) :
  format_time fmt seconds = Ok s ->
  exists (c : clock) (whole field : Z),
    clock_of seconds = Ok c
    /\ PyFloat.to_int seconds = Ok whole
    /\ let product :=
         PyFloat.mul (PyFloat.sub seconds (PyFloat.of_Z whole))
                     (PyFloat.of_Z (scale_of fmt)) in
       PyFloat.to_int product = Ok field
       /\ field = Z.quot (PyFloat.exact_num product) (PyFloat.exact_den product)
       /\ s = clock_part fmt c +:+ format_0d (field_width fmt) field.
Proof.
  intros H.
  assert (Hsub : forall field, subsecond (scale_of fmt) seconds = Ok field ->
            exists whole, PyFloat.to_int seconds = Ok whole
              /\ PyFloat.to_int
                   (PyFloat.mul (PyFloat.sub seconds (PyFloat.of_Z whole))
                                (PyFloat.of_Z (scale_of fmt))) = Ok field).
  { intros field Hf. unfold subsecond in Hf.
    apply rbind_Ok_inv in Hf as (whole & Hw & Hf). eauto. }
  destruct fmt; simpl in H;
    [unfold _format_srt_time in H | unfold _format_ass_time in H];
    apply rbind_Ok_inv in H as (c & Hc & H);
    apply rbind_Ok_inv in H as (field & Hfield & H);
    inversion H; subst s;
    destruct (Hsub field Hfield) as (whole & Hw & Hp);
    exists c, whole, field;
    (split; [exact Hc |]); (split; [exact Hw |]); cbv zeta;
    (split; [exact Hp |]); (split; [exact (to_int_truncates _ _ Hp) |]);
    unfold clock_part; now rewrite !append_assoc.
Qed.

(** 0.9996 s and 1.9995 s: the fields are 999 and 99, where rounding to
    the nearest would have carried into the seconds. *)
Lemma subsecond_field_truncated_witness :
  format_time SrtTime (PyFloat.lit 9996 4) = Ok "00:00:00,999"
  /\ exists (c : clock) (whole field : Z),
      clock_of (PyFloat.lit 9996 4) = Ok c
      /\ PyFloat.to_int (PyFloat.lit 9996 4) = Ok whole
      /\ let product :=
           PyFloat.mul (PyFloat.sub (PyFloat.lit 9996 4) (PyFloat.of_Z whole))
                       (PyFloat.of_Z (scale_of SrtTime)) in
         PyFloat.to_int product = Ok field
         /\ field = Z.quot (PyFloat.exact_num product) (PyFloat.exact_den product)
         /\ "00:00:00,999" = clock_part SrtTime c +:+ format_0d (field_width SrtTime) field.
Proof.
  assert (H : format_time SrtTime (PyFloat.lit 9996 4) = Ok "00:00:00,999")
    by (vm_compute; reflexivity).
  split; [exact H |].
  exact (subsecond_field_truncated SrtTime (PyFloat.lit 9996 4) "00:00:00,999" H).
Defined.

Example ass_field_not_rounded :
  format_time AssTime (PyFloat.lit 19995 4) = Ok "0:00:01.99".
Proof. vm_compute. reflexivity. Qed.

(** The float nearest to 3.8 is below 3.8, and so is the product: the
    millisecond field of 3.8 s is 799. *)
Example field_of_3_8 :
  _format_srt_time (PyFloat.lit 38 1) = Ok "00:00:03,799"
  /\ _format_srt_time (PyFloat.lit 2 1) = Ok "00:00:00,200".
Proof. vm_compute. split; reflexivity. Qed.

(** The seconds come from the [timedelta], which rounds to the
    microsecond, the field from the float itself: 1.9999996 s is printed
    with the seconds of 2.000000 s and the milliseconds of 1.999 s. *)
Example seconds_rounded_field_truncated :
  _format_srt_time (PyFloat.lit 19999996 7) = Ok "00:00:02,999".
Proof. vm_compute. reflexivity. Qed.

(** ** The titles of an FCPXML document *)

Lemma collect_Forall2 {A B : Type} (f : A -> result B) (l : list A) (ys : list B) :
  collect f l = Ok ys -> Forall2 (fun x y => f x = Ok y) l ys.
Proof.
  revert ys. induction l as [|x l IH]; simpl; intros ys H.
  - inversion H. constructor.
  - apply rbind_Ok_inv in H as (y & Hy & H).
    apply rbind_Ok_inv in H as (ys' & Hys & H). inversion H; subst ys.
    constructor; [exact Hy | now apply IH].
Qed.

Lemma Forall2_enumerate {A B : Type} (P : Z * A -> B -> Prop) (Q : A -> B -> Prop)
    (l : list A) (ys : list B) (i : Z) :
  (forall j x y, P (j, x) y -> Q x y) ->
  Forall2 P (enumerate i l) ys -> Forall2 Q l ys.
Proof.
  intros HPQ. revert ys i. induction l as [|x l IH]; simpl; intros ys i H.
  - inversion H. constructor.
  - inversion H as [|? y ? ys' Hxy Hrest]; subst. constructor; eauto.
Qed.

Lemma title_element_spec (fps : float) (fps_int i : Z) (seg : segment) (title : element) :
  PyFloat.to_int fps = Ok fps_int ->
  title_element fps i seg = Ok title -> title_of fps fps_int seg title.
Proof.
  intros Hfps H. unfold title_element in H.
  apply rbind_Ok_inv in H as (start_frames & Hstart & H).
  apply rbind_Ok_inv in H as (span_frames & Hspan & H).
  apply rbind_Ok_inv in H as (fps_int' & Hfps' & H).
  rewrite Hfps in Hfps'. inversion Hfps'; subst fps_int'. inversion H; subst title.
  exists start_frames, span_frames.
  split; [exact Hstart |]. split; [exact Hspan |]. split; [reflexivity |].
  split; [reflexivity |]. split; [reflexivity |]. split; [lia |].
  intros Hshort. simpl. now rewrite Z.max_l by lia.
Qed.

Lemma select_titles (titles : list element) :
  Forall (fun c => tag_of c = "title") titles ->
  flat_map (fun c => if String.eqb (tag_of c) "title" then [c] else []) titles = titles.
Proof.
  induction 1 as [|c titles Hc _ IH]; simpl; [reflexivity |].
  now rewrite Hc, IH.
Qed.

Lemma fcpxml_tree_titles (segments : list segment) (video_duration : option float)
    (fps : float) (fcpxml : element) :
  fcpxml_tree segments video_duration fps = Ok fcpxml ->
  exists fps_int,
    PyFloat.to_int fps = Ok fps_int
    /\ Forall2 (title_of fps fps_int) segments (spine_titles fcpxml).
Proof.
  unfold fcpxml_tree. intros H.
  apply rbind_Ok_inv in H as (total_frames & _ & H).
  apply rbind_Ok_inv in H as (fps_int & Hfps & H).
  apply rbind_Ok_inv in H as (titles & Htitles & H). inversion H; subst fcpxml.
  exists fps_int. split; [exact Hfps |].
  apply collect_Forall2 in Htitles.
  assert (Hall : Forall2 (title_of fps fps_int) segments titles).
  { eapply Forall2_enumerate; [| exact Htitles].
    intros j seg title. now apply title_element_spec. }
  assert (Htags : Forall (fun c => tag_of c = "title") titles).
  { clear -Hall. induction Hall as [|seg title ? ? Ht _ IH]; constructor; [| exact IH].
    destruct Ht as (? & ? & _ & _ & Htag & _). exact Htag. }
  clear H. unfold spine_titles. simpl.
  rewrite !app_nil_r, select_titles by exact Htags. exact Hall.
Qed.

(** C10: in the document that a successful [export_fcpxml] has written,
    the spine holds one [title] per segment, in order; its duration is
    [max(1, int((end - start) * fps))] frames over [int(fps)], so at
    least one frame, and exactly one frame for a segment shorter than a
    frame or of no duration; its offset is [int(start * fps)] frames over
    [int(fps)]. *)
Theorem fcpxml_title_timing (toprettyxml : element -> result string)
    (segments : list segment) (path : string) (video_duration : option float)
    (fps : float) (w w' : World) :
  export_fcpxml toprettyxml segments path video_duration fps w = (Ok true, w') ->
  exists (fcpxml : element) (pretty_xml : string) (fps_int : Z),
    fcpxml_tree segments video_duration fps = Ok fcpxml
    /\ toprettyxml fcpxml = Ok pretty_xml
    /\ files w' !! path = Some pretty_xml
    /\ PyFloat.to_int fps = Ok fps_int
    /\ Forall2 (title_of fps fps_int) segments (spine_titles fcpxml).
Proof.
  intros H.
  apply (export_sound toprettyxml (Fcpxml video_duration fps)) in H
    as (pretty_xml & Ht & Hf & _).
  simpl in Ht. apply rbind_Ok_inv in Ht as (fcpxml & Htree & Hxml).
  destruct (fcpxml_tree_titles _ _ _ _ Htree) as (fps_int & Hfps & Hall).
  exists fcpxml, pretty_xml, fps_int.
  split; [exact Htree |]. split; [exact Hxml |].
  split; [rewrite Hf; apply lookup_insert_eq |]. split; [exact Hfps | exact Hall].
Qed.

Lemma fcpxml_title_timing_witness :
  let segments := [sample_segment "one"; instant_segment] in
  let run := export_fcpxml sample_serialiser segments "out.fcpxml" None (PyFloat.of_Z 30)
               busy_world in
  run = (Ok true, snd run)
  /\ exists (fcpxml : element) (pretty_xml : string) (fps_int : Z),
      fcpxml_tree segments None (PyFloat.of_Z 30) = Ok fcpxml
      /\ sample_serialiser fcpxml = Ok pretty_xml
      /\ files (snd run) !! "out.fcpxml" = Some pretty_xml
      /\ PyFloat.to_int (PyFloat.of_Z 30) = Ok fps_int
      /\ Forall2 (title_of (PyFloat.of_Z 30) fps_int) segments (spine_titles fcpxml).
Proof.
  intros segments run.
  assert (H : run = (Ok true, snd run)) by (vm_compute; reflexivity).
  split; [exact H |].
  exact (fcpxml_title_timing sample_serialiser segments "out.fcpxml" None
           (PyFloat.of_Z 30) busy_world (snd run) H).
Defined.

Example instant_segment_one_frame :
  (fcpxml ← fcpxml_tree [sample_segment "one"; instant_segment] None (PyFloat.of_Z 30);
   Ok (map (attribute "duration") (spine_titles fcpxml)))
  = Ok [Some "52/30s"; Some "1/30s"].
Proof. vm_compute. reflexivity. Qed.

(** ** The translation layers *)

(** C1, as stated, fails without OpenCC: the raw MarianMT output 软件 is
    returned and cached as it is, not as the Traditional 軟件 the
    normaliser gives. *)
Lemma marianmt_without_converter :
  let self := sample_processor None in
  exists self',
    _translate_with_ai_layer3 ascii_lower self "software" = Ok (Some "软件", self')
    /\ translation_cache self' !! "software" = Some "软件"
    /\ sample_s2hk "软件" = "軟件"
    /\ "软件" <> "軟件".
Proof.
  intros self. eexists. split; [vm_compute; reflexivity |].
  split; [vm_compute; reflexivity |]. split; [vm_compute; reflexivity | discriminate].
Qed.

(** C1, amended: an output of MarianMT that is accepted (not empty, not
    only white space, other than the phrase itself) goes through the
    converter before it is returned and stored in the cache whenever the
    converter is there ([s2t_converter] is not [None]); when it is not
    there, the output is returned and stored as it is. *)
Theorem marianmt_output_converted (lower : string -> string) (self : StyleProcessor)
    (text raw : string) :
  translation_model self text = Ok raw ->
  nonempty raw = true -> nonempty (strip raw) = true -> raw <> text ->
  let result :=
    match s2t_converter self with
    | Some convert => convert raw
    | None => raw
    end in
  _translate_with_ai_layer3 lower self text =
  Ok (Some result, cache_store (lower text) result self)
  /\ translation_cache (cache_store (lower text) result self) !! lower text = Some result.
Proof.
  intros Hraw Hne Hstrip Hdiff result. unfold _translate_with_ai_layer3.
  rewrite Hraw. simpl. rewrite Hne, Hstrip.
  apply String.eqb_neq in Hdiff. rewrite Hdiff. simpl.
  split; [reflexivity | apply lookup_insert_eq].
Qed.

(** The scenario of the specification: MarianMT answers 软件 and the
    text handed back is 軟件. *)
Lemma marianmt_output_converted_witness :
  let self := sample_processor (Some sample_s2hk) in
  translation_model self "software" = Ok "软件"
  /\ nonempty "软件" = true /\ nonempty (strip "软件") = true /\ "软件" <> "software"
  /\ _translate_with_ai_layer3 ascii_lower self "software" =
     Ok (Some "軟件", cache_store "software" "軟件" self)
  /\ translation_cache (cache_store "software" "軟件" self) !! "software" = Some "軟件".
Proof.
  intros self.
  assert (H4 : nonempty (strip "软件") = true) by (vm_compute; reflexivity).
  assert (H5 : "软件" <> "software") by discriminate.
  split; [reflexivity |]. split; [reflexivity |].
  split; [exact H4 |]. split; [exact H5 |].
  exact (marianmt_output_converted ascii_lower self "software" "软件"
           eq_refl eq_refl H4 H5).
Defined.

(** C7, as stated, fails without OpenCC: the Qwen layer stores under
    the phrase in lower case the Simplified 软件 that the model answered,
    not the Traditional 軟件 that the normaliser gives. *)
Lemma qwen_cache_without_converter :
  let self := sample_processor None in
  exists self',
    _translate_with_ai_layer2 ascii_lower self "Software" "翻譯：软件" = (Some "软件", self')
    /\ translation_cache self' !! "software" = Some "软件"
    /\ sample_s2hk "软件" = "軟件"
    /\ "软件" <> "軟件".
Proof.
  intros self. eexists. split; [vm_compute; reflexivity |].
  split; [vm_compute; reflexivity |]. split; [vm_compute; reflexivity | discriminate].
Qed.

(** C7, amended: when the Qwen layer or the MarianMT layer returns a
    translation [r] of [text], the cache of the processor is the old one
    with [lower text] bound to [r]: the key is the phrase in lower case,
    the value is the text returned, and no other entry changes.  The
    text returned is the answer of the layer (the cleaned answer of Qwen,
    the output of MarianMT) passed through the converter when the
    converter is there, and the answer as it is otherwise. *)
Theorem translation_cached (lower : string -> string) (self self' : StyleProcessor)
    (text llm_answer r : string) :
  _translate_with_ai_layer2 lower self text llm_answer = (Some r, self')
  \/ _translate_with_ai_layer3 lower self text = Ok (Some r, self') ->
  translation_cache self' = <[lower text := r]> (translation_cache self)
  /\ translation_cache self' !! lower text = Some r
  /\ (forall key, key <> lower text ->
                  translation_cache self' !! key = translation_cache self !! key)
  /\ exists answer,
      r = match s2t_converter self with
          | Some convert => convert answer
          | None => answer
          end
      /\ ((_translate_with_ai_layer2 lower self text llm_answer = (Some r, self')
           /\ answer = remove_prefixes (strip llm_answer))
          \/ (_translate_with_ai_layer3 lower self text = Ok (Some r, self')
              /\ translation_model self text = Ok answer)).
Proof.
  intros H.
  assert (Hstore : self' = cache_store (lower text) r self
             /\ exists answer,
                 r = match s2t_converter self with
                     | Some convert => convert answer
                     | None => answer
                     end
                 /\ ((_translate_with_ai_layer2 lower self text llm_answer = (Some r, self')
                      /\ answer = remove_prefixes (strip llm_answer))
                     \/ (_translate_with_ai_layer3 lower self text = Ok (Some r, self')
                         /\ translation_model self text = Ok answer))).
  { destruct H as [H | H].
    - pose proof H as H0. unfold _translate_with_ai_layer2 in H.
      destruct (nonempty llm_answer); [| discriminate].
      destruct (nonempty (remove_prefixes (strip llm_answer))
                && negb (String.eqb (remove_prefixes (strip llm_answer)) text));
        inversion H; subst. split; [reflexivity |].
      exists (remove_prefixes (strip llm_answer)). split; [reflexivity |]. left. auto.
    - pose proof H as H0. unfold _translate_with_ai_layer3 in H.
      apply rbind_Ok_inv in H as (raw & Hraw & H).
      destruct (nonempty raw && nonempty (strip raw) && negb (String.eqb raw text));
        inversion H; subst. split; [reflexivity |].
      exists raw. split; [reflexivity |]. right. auto. }
  destruct Hstore as (-> & Hanswer). simpl.
  split; [reflexivity |]. split; [apply lookup_insert_eq |].
  split; [intros key Hkey; now apply lookup_insert_ne | exact Hanswer].
Qed.

(** The Qwen model answers in Simplified script, with a prefix; the
    converter is there: the cache holds the Traditional text. *)
Lemma translation_cached_witness :
  let self := sample_processor (Some sample_s2hk) in
  let self' := cache_store "software" "軟件" self in
  (_translate_with_ai_layer2 ascii_lower self "Software" "翻譯：软件 " = (Some "軟件", self')
   \/ _translate_with_ai_layer3 ascii_lower self "Software" = Ok (Some "軟件", self'))
  /\ translation_cache self' = <["software" := "軟件"]> (translation_cache self)
  /\ translation_cache self' !! "software" = Some "軟件"
  /\ (forall key, key <> "software" ->
                  translation_cache self' !! key = translation_cache self !! key)
  /\ exists answer,
      "軟件" = match s2t_converter self with
               | Some convert => convert answer
               | None => answer
               end
      /\ ((_translate_with_ai_layer2 ascii_lower self "Software" "翻譯：软件 "
           = (Some "軟件", self')
           /\ answer = remove_prefixes (strip "翻譯：软件 "))
          \/ (_translate_with_ai_layer3 ascii_lower self "Software" = Ok (Some "軟件", self')
              /\ translation_model self "Software" = Ok answer)).
Proof.
  intros self self'.
  assert (H : _translate_with_ai_layer2 ascii_lower self "Software" "翻譯：软件 "
              = (Some "軟件", self')
              \/ _translate_with_ai_layer3 ascii_lower self "Software"
                 = Ok (Some "軟件", self'))
    by (left; vm_compute; reflexivity).
  split; [exact H |].
  exact (translation_cached ascii_lower self self' "Software" "翻譯：软件 " "軟件" H).
Defined.

(** ** Whisper's initial prompt *)

(** C8: both call sites hand Whisper the same prompt: with a custom
    vocabulary that is not empty, the base prompt followed by
    用戶指定詞彙：, the vocabulary and 。; without one, no prompt
    ([None]).  The language is always [yue]. *)
Theorem initial_prompt_built (config : gmap string string) (audio_path : string) :
  let custom_prompt := config_get config "whisper_custom_prompt" EmptyString in
  let call :=
    {| call_audio_path := audio_path;
       call_language := "yue";
       call_initial_prompt :=
         if decide (custom_prompt = EmptyString) then None
         else Some (base_prompt +:+ "用戶指定詞彙：" +:+ custom_prompt +:+ "。") |} in
  pipeline_transcribe config audio_path = call
  /\ worker_transcribe config audio_path = call.
Proof.
  intros custom_prompt call. unfold pipeline_transcribe, worker_transcribe, call.
  fold custom_prompt.
  destruct custom_prompt as [|a s]; simpl; split; reflexivity.
Qed.

Example initial_prompt_with_names :
  call_initial_prompt
    (pipeline_transcribe {["whisper_custom_prompt" := "陳奕迅、張學友、Eason"]} "a.wav")
  = Some ("以下係廣東話對白，請用粵語口語字幕：佢、喺、睇、嘅、咁、啲、咗、嚟、冇、諗、唔、咩、乜、點、邊、噉、嗰、呢、哋、咪、囉、喎、啦、㗎、吖。用戶指定詞彙：陳奕迅、張學友、Eason。").
Proof. vm_compute. reflexivity. Qed.

Example initial_prompt_absent :
  call_initial_prompt (worker_transcribe ∅ "a.wav") = None
  /\ call_initial_prompt
       (worker_transcribe {["whisper_custom_prompt" := EmptyString]} "a.wav") = None.
Proof. vm_compute. split; reflexivity. Qed.

(** * Further properties of the exporter *)

(** ** Only the output file changes *)

Lemma confined_ret {A : Type} (a : A) (path : string) : confined (mret a) path.
Proof. intros w r w' H. inversion H; subst. auto. Qed.

Lemma confined_lift {A : Type} (r0 : result A) (path : string) : confined (lift r0) path.
Proof. intros w r w' H. inversion H; subst. auto. Qed.

Lemma confined_syscall (path : string) : confined syscall path.
Proof.
  intros w r w' H. unfold syscall in H.
  destruct (io_script w) as [|ok script]; inversion H; subst; auto.
Qed.

Lemma confined_bind {A B : Type} (m : IO A) (k : A -> IO B) (path : string) :
  confined m path -> (forall a, confined (k a) path) -> confined (m ≫= k) path.
Proof.
  intros Hm Hk w r w' H. unfold mbind, IO_bind in H.
  destruct (m w) as [[a|e] w1] eqn:Em.
  - destruct (Hm _ _ _ Em) as [Ho Hf]. destruct (Hk a _ _ _ H) as [Ho' Hf'].
    split; [congruence |]. intros q Hq. rewrite Hf', Hf; auto.
  - inversion H; subst. exact (Hm _ _ _ Em).
Qed.

Lemma confined_set_file (path content : string) : confined (set_file path content) path.
Proof.
  intros w r w' H. inversion H; subst; simpl. split; [reflexivity |].
  intros q Hq. now apply lookup_insert_ne.
Qed.

Lemma confined_write (path s : string) : confined (write path s) path.
Proof.
  apply confined_bind; [apply confined_syscall |]. intros _ w r w' H.
  exact (confined_set_file path _ w r w' H).
Qed.

Lemma confined_for_each {A : Type} (body : A -> IO unit) (path : string) (l : list A) :
  (forall x, confined (body x) path) -> confined (for_each body l) path.
Proof.
  intros Hb. induction l as [|x l IH]; simpl.
  - apply confined_ret.
  - apply confined_bind; [apply Hb | intros _; exact IH].
Qed.

Lemma confined_with_open_w {A : Type} (body : IO A) (path : string) :
  confined body path -> confined (with_open_w path body) path.
Proof.
  intros Hb. unfold with_open_w, open_w.
  apply confined_bind.
  - apply confined_bind; [apply confined_syscall | intros _; apply confined_set_file].
  - intros _ w r w' H. unfold finally_close in H.
    destruct (body w) as [[a|e] w1] eqn:Eb; destruct (Hb _ _ _ Eb) as [Ho Hf].
    + assert (Hc : confined (close;; mret a) path)
        by (apply confined_bind; [apply confined_syscall | intros _; apply confined_ret]).
      destruct (Hc _ _ _ H) as [Ho' Hf'].
      split; [congruence |]. intros q Hq. rewrite Hf', Hf; auto.
    + destruct (close w1) as [[[]|e'] w2] eqn:Ec;
        destruct (confined_syscall path _ _ _ Ec) as [Ho' Hf'];
        inversion H; subst;
        (split; [congruence |]); intros q Hq; rewrite Hf', Hf; auto.
Qed.

Lemma export_body_confined (toprettyxml : element -> result string) (op : export_op)
    (segments : list segment) (path : string) :
  confined (export_body toprettyxml op segments path) path.
Proof.
  destruct op as [|style_name|include_timestamps|video_duration fps]; simpl.
  - apply confined_with_open_w, confined_for_each. intros [i seg].
    apply confined_bind; [apply confined_write | intros _].
    apply confined_bind; [apply confined_lift | intros start_time].
    apply confined_bind; [apply confined_lift | intros end_time].
    repeat (apply confined_bind; [apply confined_write | intros _]).
    apply confined_write.
  - apply confined_with_open_w.
    do 10 (apply confined_bind; [apply confined_write | intros _]).
    apply confined_for_each. intros seg.
    apply confined_bind; [apply confined_lift | intros start_time].
    apply confined_bind; [apply confined_lift | intros end_time].
    apply confined_write.
  - apply confined_with_open_w, confined_for_each. intros seg.
    destruct include_timestamps; apply confined_write.
  - unfold export_fcpxml_body.
    apply confined_bind; [apply confined_lift | intros fcpxml].
    apply confined_bind; [apply confined_lift | intros pretty_xml].
    apply confined_with_open_w, confined_write.
Qed.

(** X3: whatever an export returns, no file other than the output file
    has changed; it has printed nothing when it returns [True] and exactly
    one line, the error message of its format, when it returns [False]. *)
Theorem export_touches_one_file (toprettyxml : element -> result string) (op : export_op)
    (segments : list segment) (path : string) (w w' : World) (b : bool) :
  export toprettyxml op segments path w = (Ok b, w') ->
  (forall q, q <> path -> files w' !! q = files w !! q)
  /\ if b then stdout w' = stdout w
     else exists e, stdout w' = stdout w ++ [(error_prefix op, e)].
Proof.
  intros H.
  assert (Heq : export toprettyxml op segments path w =
                guarded (error_prefix op) (export_body toprettyxml op segments path) w)
    by (destruct op; reflexivity).
  rewrite Heq, guarded_eq in H.
  destruct (export_body toprettyxml op segments path w) as [[[]|e] w1] eqn:Eb;
    destruct (export_body_confined _ _ _ _ _ _ _ Eb) as [Ho Hf];
    inversion H; subst; simpl.
  - auto.
  - split; [exact Hf |]. exists e. now rewrite Ho.
Qed.

Lemma export_touches_one_file_witness :
  let segments := [sample_segment "one";
                   {| seg_start := S754_nan; seg_end := S754_nan; seg_text := "two" |}] in
  let run := export sample_serialiser Srt segments "new.srt" busy_world in
  run = (Ok false, snd run)
  /\ (forall q, q <> "new.srt" -> files (snd run) !! q = files busy_world !! q)
  /\ exists e, stdout (snd run) = stdout busy_world ++ [(error_prefix Srt, e)].
Proof.
  intros segments run.
  assert (H : run = (Ok false, snd run)) by (vm_compute; reflexivity).
  split; [exact H |].
  exact (export_touches_one_file sample_serialiser Srt segments "new.srt"
           busy_world (snd run) false H).
Defined.

(** ** The fields of a timecode *)

Lemma string_length_app (s1 s2 : string) :
  String.length (s1 +:+ s2) = (String.length s1 + String.length s2)%nat.
Proof.
  induction s1 as [|a s1 IH]; [reflexivity |].
  rewrite append_cons. simpl. now rewrite IH.
Qed.

Lemma zeros_length (k : nat) : String.length (zeros k) = k.
Proof. induction k as [|k IH]; simpl; [reflexivity | now rewrite IH]. Qed.

Lemma clock_fields_bounds (seconds : float) (c : clock) :
  clock_of seconds = Ok c -> 0 <= minutes c < 60 /\ 0 <= secs c < 60.
Proof.
  unfold clock_of. intros H.
  apply rbind_Ok_inv in H as (td & Htd & H).
  apply rbind_Ok_inv in H as (total & Htotal & H). inversion H; subst c; simpl.
  pose proof (Z.mod_pos_bound total 3600 ltac:(lia)) as Hm.
  pose proof (Z.mod_pos_bound total 60 ltac:(lia)) as Hs.
  split; [split; [apply Z.div_pos; lia | apply Z.div_lt_upper_bound; lia] | exact Hs].
Qed.

(** X10: hours, minutes and seconds are the decomposition of the integer
    number of seconds of the [timedelta]: the minutes and the seconds are
    always between 0 and 59, also for a negative time, where the hours
    are negative, and [3600 * hours + 60 * minutes + secs] is that number
    again. *)
Theorem clock_fields_decompose (seconds : float) (c : clock) :
  clock_of seconds = Ok c ->
  exists (td : timedelta) (total : Z),
    timedelta_of_seconds seconds = Ok td
    /\ PyFloat.to_int (total_seconds td) = Ok total
    /\ 0 <= minutes c < 60
    /\ 0 <= secs c < 60
    /\ 3600 * hours c + 60 * minutes c + secs c = total
    /\ (0 <= total <-> 0 <= hours c).
Proof.
  unfold clock_of. intros H.
  apply rbind_Ok_inv in H as (td & Htd & H).
  apply rbind_Ok_inv in H as (total & Htotal & H). inversion H; subst c; simpl.
  exists td, total. split; [exact Htd |]. split; [exact Htotal |].
  pose proof (Z.mod_pos_bound total 3600 ltac:(lia)) as Hm.
  pose proof (Z.mod_pos_bound total 60 ltac:(lia)) as Hs.
  pose proof (Z.div_mod total 3600 ltac:(lia)) as Hd.
  pose proof (Z.div_mod (total mod 3600) 60 ltac:(lia)) as Hd'.
  assert (Hmm : (total mod 3600) mod 60 = total mod 60).
  { pose proof (Z.mod_pos_bound (total mod 3600) 60 ltac:(lia)) as Hb.
    apply (Zmod_unique total 60 (60 * (total / 3600) + (total mod 3600) / 60)); lia. }
  split; [split; [apply Z.div_pos; lia | apply Z.div_lt_upper_bound; lia] |].
  split; [exact Hs |]. split; [lia |].
  split; intros Hsign.
  - apply Z.div_pos; lia.
  - destruct (Z_lt_le_dec total 0) as [Hneg|]; [| assumption].
    pose proof (Z.div_lt_upper_bound total 3600 0 ltac:(lia) ltac:(lia)). lia.
Qed.

Lemma clock_fields_decompose_witness :
  clock_of (PyFloat.lit (-36615) 1) = Ok {| hours := -2; minutes := 58; secs := 59 |}
  /\ exists (td : timedelta) (total : Z),
      timedelta_of_seconds (PyFloat.lit (-36615) 1) = Ok td
      /\ PyFloat.to_int (total_seconds td) = Ok total
      /\ 0 <= 58 < 60 /\ 0 <= 59 < 60
      /\ 3600 * -2 + 60 * 58 + 59 = total
      /\ (0 <= total <-> 0 <= -2).
Proof.
  assert (H : clock_of (PyFloat.lit (-36615) 1)
              = Ok {| hours := -2; minutes := 58; secs := 59 |})
    by (vm_compute; reflexivity).
  split; [exact H |].
  exact (clock_fields_decompose (PyFloat.lit (-36615) 1) _ H).
Defined.

Lemma format_0d_length (width : nat) (n : Z) :
  0 <= n ->
  String.length (format_0d width n) = Nat.max width (String.length (str_int n)).
Proof.
  intros Hn. unfold format_0d, str_int.
  assert (Hlt : (n <? 0) = false) by (apply Z.ltb_ge; lia). rewrite Hlt.
  rewrite string_length_app, zeros_length. lia.
Qed.

Lemma two_digits (n : Z) : 0 <= n < 60 -> String.length (format_0d 2 n) = 2%nat.
Proof.
  intros Hn.
  assert (Hall : forallb (fun k => Nat.eqb (String.length (format_0d 2 (Z.of_nat k))) 2)
                         (seq 0 60) = true) by (vm_compute; reflexivity).
  rewrite forallb_forall in Hall.
  specialize (Hall (Z.to_nat n)). rewrite Z2Nat.id in Hall by lia.
  apply Nat.eqb_eq, Hall, in_seq. lia.
Qed.

(** X11: the layout of a timecode that is not negative.  Minutes and
    seconds take two characters each, so the part before the sub-second
    field is the hours and seven more characters; the hours are padded
    to two digits in SRT and never cut: from 100 hours on the SRT
    timecode has more than two hour digits. *)
Theorem clock_part_layout (fmt : timecode_format) (seconds : float) (c : clock) :
  clock_of seconds = Ok c ->
  0 <= hours c ->
  String.length (clock_part fmt c)
  = (match fmt with
     | SrtTime => Nat.max 2 (String.length (str_int (hours c)))
     | AssTime => String.length (str_int (hours c))
     end + 7)%nat.
Proof.
  intros Hc Hh.
  destruct (clock_fields_bounds seconds c Hc) as (Hm & Hs).
  destruct fmt; unfold clock_part; rewrite !string_length_app;
    rewrite (two_digits _ Hm), (two_digits _ Hs), ?(format_0d_length 2 (hours c) Hh);
    change (String.length ":") with 1%nat; change (String.length ",") with 1%nat;
    change (String.length ".") with 1%nat; lia.
Qed.

Lemma clock_part_layout_witness :
  clock_of (PyFloat.lit 3600005 1) = Ok {| hours := 100; minutes := 0; secs := 0 |}
  /\ 0 <= 100
  /\ String.length (clock_part SrtTime {| hours := 100; minutes := 0; secs := 0 |})
     = (Nat.max 2 (String.length (str_int 100)) + 7)%nat.
Proof.
  assert (H : clock_of (PyFloat.lit 3600005 1)
              = Ok {| hours := 100; minutes := 0; secs := 0 |})
    by (vm_compute; reflexivity).
  assert (Hh : 0 <= 100) by lia.
  split; [exact H |]. split; [exact Hh |].
  exact (clock_part_layout SrtTime (PyFloat.lit 3600005 1)
           {| hours := 100; minutes := 0; secs := 0 |} H Hh).
Defined.

(** ** Timestamps that are not numbers *)

Lemma to_int_finite (x : float) (z : Z) : PyFloat.to_int x = Ok z -> finite x = true.
Proof. destruct x; simpl; intros H; [reflexivity | discriminate | discriminate | reflexivity]. Qed.

Lemma clock_of_finite (x : float) (c : clock) : clock_of x = Ok c -> finite x = true.
Proof.
  unfold clock_of, timedelta_of_seconds. intros H.
  apply rbind_Ok_inv in H as (td & Htd & _).
  apply rbind_Ok_inv in Htd as (whole & Hw & _).
  exact (to_int_finite _ _ Hw).
Qed.

Lemma format_time_finite (fmt : timecode_format) (x : float) (s : string) :
  format_time fmt x = Ok s -> finite x = true.
Proof.
  destruct fmt; simpl; [unfold _format_srt_time | unfold _format_ass_time];
    intros H; apply rbind_Ok_inv in H as (c & Hc & _); exact (clock_of_finite _ _ Hc).
Qed.

Lemma join_all_In {A : Type} (g : A -> result string) (l : list A) (t : string) (x : A) :
  join_all g l = Ok t -> In x l -> exists s, g x = Ok s.
Proof.
  revert t. induction l as [|y l IH]; simpl; intros t H Hin; [contradiction |].
  apply rbind_Ok_inv in H as (s & Hs & H).
  apply rbind_Ok_inv in H as (ts & Hts & _).
  destruct Hin as [-> | Hin]; eauto.
Qed.

Lemma In_enumerate {A : Type} (l : list A) (x : A) (start : Z) :
  In x l -> exists i, In (i, x) (enumerate start l).
Proof.
  revert start. induction l as [|y l IH]; simpl; intros start Hin; [contradiction |].
  destruct Hin as [-> | Hin].
  - exists start. now left.
  - destruct (IH (start + 1) Hin) as (i & Hi). exists i. now right.
Qed.

Lemma export_returns_bool (toprettyxml : element -> result string) (op : export_op)
    (segments : list segment) (path : string) (w : World) :
  exists b w', export toprettyxml op segments path w = (Ok b, w').
Proof.
  assert (Heq : export toprettyxml op segments path w =
                guarded (error_prefix op) (export_body toprettyxml op segments path) w)
    by (destruct op; reflexivity).
  rewrite Heq, guarded_eq.
  destruct (export_body toprettyxml op segments path w) as [[[]|e] w']; eauto.
Qed.

(** X4: a segment whose start or end is NaN or infinite makes the SRT
    export and the ASS export return [False], in every world and wherever
    the segment stands in the list. *)
Theorem export_rejects_non_finite (segments : list segment) (seg : segment)
    (path style_name : string) (w : World) :
  In seg segments ->
  finite (seg_start seg) && finite (seg_end seg) = false ->
  fst (export_srt segments path w) = Ok false
  /\ fst (export_ass segments path style_name w) = Ok false.
Proof.
  intros Hin Hbad.
  assert (Hno : forall fmt,
             ~ (exists s1 s2, format_time fmt (seg_start seg) = Ok s1
                              /\ format_time fmt (seg_end seg) = Ok s2)).
  { intros fmt (s1 & s2 & H1 & H2).
    apply format_time_finite in H1. apply format_time_finite in H2.
    rewrite H1, H2 in Hbad. discriminate. }
  split.
  - destruct (export_returns_bool sample_serialiser Srt segments path w) as ([] & w' & H);
      simpl in H; rewrite H; [| reflexivity].
    exfalso. apply (export_sound sample_serialiser Srt) in H as (t & Ht & _).
    simpl in Ht. unfold srt_text in Ht.
    destruct (In_enumerate segments seg 1 Hin) as (i & Hi).
    destruct (join_all_In _ _ _ _ Ht Hi) as (s & Hs). unfold srt_entry in Hs.
    apply rbind_Ok_inv in Hs as (s1 & H1 & Hs).
    apply rbind_Ok_inv in Hs as (s2 & H2 & _).
    apply (Hno SrtTime). eauto.
  - destruct (export_returns_bool sample_serialiser (Ass style_name) segments path w)
      as ([] & w' & H); simpl in H; rewrite H; [| reflexivity].
    exfalso. apply (export_sound sample_serialiser (Ass style_name)) in H as (t & Ht & _).
    simpl in Ht. unfold ass_text in Ht.
    apply rbind_Ok_inv in Ht as (events & Hev & _).
    destruct (join_all_In _ _ _ _ Hev Hin) as (s & Hs). unfold dialogue_line in Hs.
    apply rbind_Ok_inv in Hs as (s1 & H1 & Hs).
    apply rbind_Ok_inv in Hs as (s2 & H2 & _).
    apply (Hno AssTime). eauto.
Qed.

Lemma export_rejects_non_finite_witness :
  let bad := {| seg_start := PyFloat.lit 15 1; seg_end := S754_infinity false;
                seg_text := "open end" |} in
  let segments := [sample_segment "one"; bad] in
  In bad segments
  /\ finite (seg_start bad) && finite (seg_end bad) = false
  /\ fst (export_srt segments "out.srt" busy_world) = Ok false
  /\ fst (export_ass segments "out.srt" "Default" busy_world) = Ok false.
Proof.
  intros bad segments.
  assert (Hin : In bad segments) by (right; left; reflexivity).
  split; [exact Hin |]. split; [reflexivity |].
  exact (export_rejects_non_finite segments bad "out.srt" "Default" busy_world
           Hin eq_refl).
Defined.

(** ** The SRT and TXT files *)

Lemma enumerate_lookup {A : Type} (l : list A) (start : Z) (k : nat) :
  enumerate start l !! k = (fun x => (start + Z.of_nat k, x)) <$> l !! k.
Proof.
  revert start k. induction l as [|y l IH]; intros start k; [now destruct k |].
  destruct k as [|k]; simpl.
  - now rewrite Z.add_0_r.
  - rewrite IH. destruct (l !! k); simpl; [| reflexivity].
    do 2 f_equal. lia.
Qed.

Lemma enumerate_length {A : Type} (l : list A) (start : Z) :
  length (enumerate start l) = length l.
Proof. revert start. induction l as [|y l IH]; intros start; simpl; [| rewrite IH]; auto. Qed.

(** X1: after a successful [export_srt] the file is the sequence of the
    entries of the segments, in their order; the entry of the segment at
    position [k] (from 0) is the number [k + 1], the line
    [<start> --> <end>], the text as it is, and an empty line. *)
Theorem srt_file_structure (segments : list segment) (path : string) (w w' : World) :
  export_srt segments path w = (Ok true, w') ->
  exists entries,
    files w' !! path = Some (concat_all entries)
    /\ length entries = length segments
    /\ forall (k : nat) (seg : segment),
        segments !! k = Some seg ->
        exists start_time end_time,
          _format_srt_time (seg_start seg) = Ok start_time
          /\ _format_srt_time (seg_end seg) = Ok end_time
          /\ entries !! k =
             Some (str_int (Z.of_nat k + 1) +:+ LF +:+ start_time +:+ " --> " +:+ end_time
                   +:+ LF +:+ seg_text seg +:+ LF +:+ LF).
Proof.
  intros H.
  apply (export_sound sample_serialiser Srt) in H as (t & Ht & Hf & _).
  simpl in Ht. unfold srt_text in Ht.
  apply join_all_lines in Ht as (entries & Hall & ->).
  exists entries. split; [rewrite Hf; apply lookup_insert_eq |].
  split; [rewrite <- (Forall2_length _ _ _ Hall); apply enumerate_length |].
  intros k seg Hk.
  assert (Hek : enumerate 1 segments !! k = Some (1 + Z.of_nat k, seg))
    by (rewrite enumerate_lookup, Hk; reflexivity).
  destruct (Forall2_lookup_l _ _ _ _ _ Hall Hek) as (entry & Hentry & Hline).
  unfold srt_entry in Hline.
  apply rbind_Ok_inv in Hline as (start_time & Hs & Hline).
  apply rbind_Ok_inv in Hline as (end_time & He & Hline). inversion Hline; subst entry.
  exists start_time, end_time. split; [exact Hs |]. split; [exact He |].
  rewrite Hentry. do 3 f_equal. lia.
Qed.

Lemma srt_file_structure_witness :
  let segments := [sample_segment "one"; sample_segment "two"] in
  let run := export_srt segments "out.srt" busy_world in
  run = (Ok true, snd run)
  /\ exists entries,
      files (snd run) !! "out.srt" = Some (concat_all entries)
      /\ length entries = length segments
      /\ forall (k : nat) (seg : segment),
          segments !! k = Some seg ->
          exists start_time end_time,
            _format_srt_time (seg_start seg) = Ok start_time
            /\ _format_srt_time (seg_end seg) = Ok end_time
            /\ entries !! k =
               Some (str_int (Z.of_nat k + 1) +:+ LF +:+ start_time +:+ " --> "
                     +:+ end_time +:+ LF +:+ seg_text seg +:+ LF +:+ LF).
Proof.
  intros segments run.
  assert (H : run = (Ok true, snd run)) by (vm_compute; reflexivity).
  split; [exact H |].
  exact (srt_file_structure segments "out.srt" busy_world (snd run) H).
Defined.

Lemma join_all_total {A : Type} (f : A -> string) (l : list A) :
  join_all (fun x => Ok (f x)) l = Ok (concat_all (map f l)).
Proof. induction l as [|x l IH]; simpl; [reflexivity | now rewrite IH]. Qed.

(** X2: for segments as modelled here (timestamps that are floats, a
    text that is given by its UTF-8 encoding), the TXT export does not
    depend on the floats being numbers: without I/O errors it returns
    [True] for every list of such segments, NaN and infinities included,
    and
    the file is one line per segment, the text after
    [[<start>s - <end>s]] with two decimals when timestamps are asked
    for, the text alone otherwise. *)
Theorem export_txt_total (segments : list segment) (path : string)
    (include_timestamps : bool) (w : World) :
  io_script w = [] ->
  export_txt segments path include_timestamps w =
  (Ok true,
   {| files :=
        <[path :=
            concat_all
              (map (fun seg =>
                      if include_timestamps
                      then "[" +:+ format_2f (seg_start seg) +:+ "s - "
                           +:+ format_2f (seg_end seg) +:+ "s] " +:+ seg_text seg +:+ LF
                      else seg_text seg +:+ LF)
                   segments)]> (files w);
      io_script := [];
      stdout := stdout w |}).
Proof.
  intros Hs.
  apply (export_quiet sample_serialiser (Txt include_timestamps)); [exact Hs |].
  simpl. unfold txt_text, txt_line.
  rewrite (join_all_total
             (fun seg =>
                if include_timestamps
                then "[" +:+ format_2f (seg_start seg) +:+ "s - "
                     +:+ format_2f (seg_end seg) +:+ "s]" +:+ " " +:+ seg_text seg +:+ LF
                else seg_text seg +:+ LF)).
  reflexivity.
Qed.

Lemma export_txt_total_witness :
  let segments := [{| seg_start := S754_nan; seg_end := S754_infinity true;
                      seg_text := "no time" |}] in
  io_script (quiet_world ∅ []) = []
  /\ export_txt segments "out.txt" true (quiet_world ∅ []) =
     (Ok true, quiet_world {["out.txt" := "[nan" +:+ "s - -inf" +:+ "s] no time" +:+ LF]} []).
Proof.
  intros segments. split; [reflexivity |].
  exact (export_txt_total segments "out.txt" true (quiet_world ∅ []) eq_refl).
Defined.

(** ** When the export fails *)

Lemma bind_Raise {A B : Type} (m : IO A) (k : A -> IO B) (w w1 : World) (e : exn) :
  m w = (Raise e, w1) -> (m ≫= k) w = (Raise e, w1).
Proof. unfold mbind, IO_bind. now intros ->. Qed.

Lemma with_open_w_denied {A : Type} (body : IO A) (path : string) (w : World)
    (script : list bool) :
  io_script w = false :: script ->
  with_open_w path body w =
  (Raise OSError, {| files := files w; io_script := script; stdout := stdout w |}).
Proof.
  intros Hs. unfold with_open_w, open_w.
  apply bind_Raise, bind_Raise. unfold syscall. now rewrite Hs.
Qed.

(** X6: when the file cannot be opened, the SRT, ASS and TXT exports
    return [False] after printing the error, and the file system is as it
    was: the previous content of the file is kept. *)
Theorem export_open_denied (segments : list segment) (path style_name : string)
    (include_timestamps : bool) (w : World) (script : list bool) :
  io_script w = false :: script ->
  let after (prefix : string) :=
    (Ok false, {| files := files w; io_script := script;
                  stdout := stdout w ++ [(prefix, OSError)] |}) in
  export_srt segments path w = after "Error exporting SRT: "
  /\ export_ass segments path style_name w = after "Error exporting ASS: "
  /\ export_txt segments path include_timestamps w = after "Error exporting TXT: ".
Proof.
  intros Hs after.
  unfold export_srt, export_ass, export_txt,
    export_srt_body, export_ass_body, export_txt_body.
  rewrite !guarded_eq, !(with_open_w_denied _ _ _ _ Hs). auto.
Qed.

Lemma export_open_denied_witness :
  let w := {| files := {["out.srt" := "old content"]}; io_script := [false];
              stdout := [] |} in
  let after (prefix : string) :=
    (Ok false, {| files := files w; io_script := [];
                  stdout := stdout w ++ [(prefix, OSError)] |}) in
  io_script w = [false]
  /\ export_srt [sample_segment "one"] "out.srt" w = after "Error exporting SRT: "
  /\ export_ass [sample_segment "one"] "out.srt" "Default" w = after "Error exporting ASS: "
  /\ export_txt [sample_segment "one"] "out.srt" true w = after "Error exporting TXT: ".
Proof.
  intros w after. split; [reflexivity |].
  exact (export_open_denied [sample_segment "one"] "out.srt" "Default" true w []
           eq_refl).
Defined.

(** X8: [export_fcpxml] opens the file only once the document is built
    and serialised: when a timestamp or the frame rate cannot be
    converted, or the serialiser raises, it returns [False] and has
    touched neither the file nor the operating system; only the error
    line is printed. *)
Theorem export_fcpxml_fails_before_open (toprettyxml : element -> result string)
    (segments : list segment) (path : string) (video_duration : option float)
    (fps : float) (w : World) (e : exn) :
  (fcpxml ← fcpxml_tree segments video_duration fps; toprettyxml fcpxml) = Raise e ->
  export_fcpxml toprettyxml segments path video_duration fps w =
  (Ok false, {| files := files w; io_script := io_script w;
                stdout := stdout w ++ [("Error exporting FCPXML: ", e)] |}).
Proof.
  intros H. unfold export_fcpxml. rewrite guarded_eq. unfold export_fcpxml_body.
  destruct (fcpxml_tree segments video_duration fps) as [fcpxml|e1] eqn:Et; simpl in H.
  - rewrite (bind_Ok _ _ w w fcpxml) by reflexivity.
    rewrite (bind_Raise _ _ w w e) by (unfold lift; now rewrite H). reflexivity.
  - inversion H; subst e1.
    rewrite (bind_Raise _ _ w w e) by reflexivity. reflexivity.
Qed.

Lemma export_fcpxml_fails_before_open_witness :
  (fcpxml ← fcpxml_tree [sample_segment "one"] None S754_nan; sample_serialiser fcpxml)
  = Raise ValueError
  /\ export_fcpxml sample_serialiser [sample_segment "one"] "out.srt" None S754_nan
       busy_world =
     (Ok false, {| files := files busy_world; io_script := io_script busy_world;
                   stdout := stdout busy_world
                             ++ [("Error exporting FCPXML: ", ValueError)] |}).
Proof.
  assert (H : (fcpxml ← fcpxml_tree [sample_segment "one"] None S754_nan;
               sample_serialiser fcpxml) = Raise ValueError)
    by (vm_compute; reflexivity).
  split; [exact H |].
  exact (export_fcpxml_fails_before_open sample_serialiser [sample_segment "one"]
           "out.srt" None S754_nan busy_world ValueError H).
Defined.

Lemma for_each_app {A : Type} (body : A -> IO unit) (l1 l2 : list A) (w : World) :
  for_each body (l1 ++ l2) w = (for_each body l1;; for_each body l2) w.
Proof.
  revert w. induction l1 as [|x l1 IH]; intros w; simpl.
  - reflexivity.
  - unfold mbind, IO_bind. destruct (body x w) as [[[]|e] w1]; [| reflexivity].
    rewrite IH. reflexivity.
Qed.

Lemma enumerate_app {A : Type} (l1 l2 : list A) (start : Z) :
  enumerate start (l1 ++ l2)
  = enumerate start l1 ++ enumerate (start + Z.of_nat (length l1)) l2.
Proof.
  revert start. induction l1 as [|x l1 IH]; intros start; simpl.
  - now rewrite Z.add_0_r.
  - rewrite IH. do 3 f_equal. lia.
Qed.

(** X7: [export_srt] truncates the file before it formats anything.  When
    the segments before [bad] can be formatted and a timestamp of [bad]
    cannot, then without I/O errors the export returns [False] and the
    file holds the entries of the segments before [bad] followed by the
    number of [bad] alone: what the file held before is lost. *)
Theorem export_srt_leaves_partial_file (good rest : list segment) (bad : segment)
    (path t : string) (e : exn) (w : World) :
  io_script w = [] ->
  srt_text good = Ok t ->
  (start_time ← _format_srt_time (seg_start bad); _format_srt_time (seg_end bad))
  = Raise e ->
  export_srt (good ++ bad :: rest) path w =
  (Ok false,
   {| files := <[path := t +:+ str_int (Z.of_nat (length good) + 1) +:+ LF]> (files w);
      io_script := [];
      stdout := stdout w ++ [("Error exporting SRT: ", e)] |}).
Proof.
  intros Hs Hgood Hbad.
  unfold export_srt. rewrite guarded_eq. unfold export_srt_body, with_open_w, open_w.
  set (body := fun '(i, seg) =>
          write path (str_int i +:+ LF);;
          start_time ← lift (_format_srt_time (seg_start seg));
          end_time ← lift (_format_srt_time (seg_end seg));
          write path (start_time +:+ " --> " +:+ end_time +:+ LF);;
          write path (seg_text seg +:+ LF);;
          write path LF).
  set (w1 := {| files := <[path := EmptyString]> (files w);
                io_script := []; stdout := stdout w |}).
  set (w2 := {| files := <[path := t]> (files w); io_script := []; stdout := stdout w |}).
  set (n := Z.of_nat (length good) + 1).
  set (w3 := {| files := <[path := t +:+ str_int n +:+ LF]> (files w);
                io_script := []; stdout := stdout w |}).
  assert (Hopen : (syscall;; set_file path EmptyString) w = (Ok tt, w1)).
  { rewrite (bind_Ok _ _ w w tt) by now apply syscall_quiet.
    unfold set_file, w1. now rewrite Hs. }
  assert (Hloop1 : for_each body (enumerate 1 good) w1 = (Ok tt, w2)).
  { etransitivity;
      [exact (proj2 (srt_body_emits path good) w1 EmptyString t
                (lookup_insert_eq _ _ _) eq_refl Hgood) |].
    unfold w2. simpl. now rewrite insert_insert_eq. }
  assert (Hbody : body (n, bad) w2 = (Raise e, w3)).
  { unfold body.
    rewrite (bind_Ok _ _ w2 w3 tt).
    - destruct (_format_srt_time (seg_start bad)) as [start_time|e1]; simpl in Hbad.
      + rewrite (bind_Ok _ _ w3 w3 start_time) by reflexivity.
        apply bind_Raise. unfold lift. now rewrite Hbad.
      + inversion Hbad; subst e1. now apply bind_Raise.
    - rewrite write_quiet by reflexivity. unfold w3, w2, content. simpl.
      now rewrite lookup_insert_eq, insert_insert_eq. }
  assert (Hloop : for_each body (enumerate 1 (good ++ bad :: rest)) w1 = (Raise e, w3)).
  { rewrite enumerate_app, for_each_app.
    rewrite (bind_Ok _ _ _ _ _ Hloop1). simpl.
    replace (1 + Z.of_nat (length good)) with n by (unfold n; lia).
    now apply bind_Raise. }
  rewrite (bind_Ok _ _ _ _ _ Hopen). unfold finally_close. rewrite Hloop.
  unfold close. rewrite (syscall_quiet w3) by reflexivity. reflexivity.
Qed.

Lemma export_srt_leaves_partial_file_witness :
  let bad := {| seg_start := PyFloat.lit 4 0; seg_end := S754_nan; seg_text := "two" |} in
  let w := quiet_world {["out.srt" := "old content"]} [] in
  let t := "1" +:+ LF +:+ "00:00:01,500 --> 00:00:03,250" +:+ LF +:+ "one" +:+ LF +:+ LF in
  io_script w = []
  /\ srt_text [sample_segment "one"] = Ok t
  /\ (start_time ← _format_srt_time (seg_start bad); _format_srt_time (seg_end bad))
     = Raise ValueError
  /\ export_srt ([sample_segment "one"] ++ bad :: [sample_segment "three"]) "out.srt" w =
     (Ok false,
      {| files := <["out.srt" := t +:+ "2" +:+ LF]> (files w);
         io_script := [];
         stdout := stdout w ++ [("Error exporting SRT: ", ValueError)] |}).
Proof.
  intros bad w t.
  assert (H2 : srt_text [sample_segment "one"] = Ok t) by (vm_compute; reflexivity).
  assert (H3 : (start_time ← _format_srt_time (seg_start bad);
                _format_srt_time (seg_end bad)) = Raise ValueError)
    by (vm_compute; reflexivity).
  split; [reflexivity |]. split; [exact H2 |]. split; [exact H3 |].
  exact (export_srt_leaves_partial_file [sample_segment "one"] [sample_segment "three"]
           bad "out.srt" t ValueError w eq_refl H2 H3).
Defined.

(** ** The FCPXML document *)

Ltac order_cases :=
  repeat match goal with
         | |- context [Pos.compare_cont Eq ?a ?b] =>
           change (Pos.compare_cont Eq a b) with (Pos.compare a b);
           destruct (Pos.compare_spec a b)
         | |- context [(?a ?= ?b)%positive] => destruct (Pos.compare_spec a b)
         | |- context [?a ?= ?b] => destruct (Z.compare_spec a b)
         end.

Lemma ltb_negative_transitive (a b c : float) :
  PyFloat.ltb a c = true -> b <> S754_nan ->
  PyFloat.ltb a b = true \/ PyFloat.ltb b c = true.
Proof.
  unfold PyFloat.ltb, SFltb.
  destruct a as [sa|sa| |sa ma ea], b as [sb|sb| |sb mb eb], c as [sc|sc| |sc mc ec];
    simpl; try discriminate; try congruence; intros H _;
    try destruct sa; try destruct sb; try destruct sc; simpl in *;
    try discriminate; auto;
    revert H; order_cases; simpl;
    intros; try discriminate; auto; try lia.
Qed.

Lemma ltb_asymmetric (a b : float) : PyFloat.ltb a b = true -> PyFloat.ltb b a = false.
Proof.
  unfold PyFloat.ltb, SFltb.
  destruct a as [sa|sa| |sa ma ea], b as [sb|sb| |sb mb eb];
    simpl; try discriminate; auto; intros H;
    try destruct sa; try destruct sb; simpl in *; try discriminate; auto;
    revert H; order_cases; simpl; intros; try discriminate; auto; try lia.
Qed.

Lemma ltb_nan_l (x : float) : PyFloat.ltb S754_nan x = false.
Proof. reflexivity. Qed.

Lemma ltb_nan_r (x : float) : PyFloat.ltb x S754_nan = false.
Proof. now destruct x. Qed.

Lemma max_float_nan (rest : list float) : max_float S754_nan rest = S754_nan.
Proof. induction rest as [|x rest IH]; [reflexivity | exact IH]. Qed.

Lemma max_float_In (first : float) (rest : list float) :
  In (max_float first rest) (first :: rest).
Proof.
  revert first. induction rest as [|x rest IH]; intros first; [now left |].
  change (max_float first (x :: rest))
    with (max_float (if PyFloat.ltb first x then x else first) rest).
  destruct (IH (if PyFloat.ltb first x then x else first)) as [H | H].
  - rewrite <- H. destruct (PyFloat.ltb first x); [right; now left | now left].
  - right. now right.
Qed.

Lemma max_float_bound (first : float) (rest : list float) (y : float) :
  In y (first :: rest) -> PyFloat.ltb (max_float first rest) y = false.
Proof.
  revert first y. induction rest as [|x rest IH]; intros first y Hin.
  - destruct Hin as [<- | []]. simpl.
    destruct (PyFloat.ltb first first) eqn:E; [| reflexivity].
    now rewrite (ltb_asymmetric _ _ E) in E.
  - change (max_float first (x :: rest))
      with (max_float (if PyFloat.ltb first x then x else first) rest).
    set (m := if PyFloat.ltb first x then x else first).
    assert (Hm : PyFloat.ltb (max_float m rest) m = false) by (apply IH; now left).
    destruct Hin as [<- | [<- | Hin]]; [| | apply IH; now right].
    + (* y = first *)
      unfold m in *. destruct (PyFloat.ltb first x) eqn:E; [| exact Hm].
      destruct (PyFloat.ltb (max_float x rest) first) eqn:E'; [| reflexivity].
      assert (Hx : x <> S754_nan) by (intros ->; now rewrite ltb_nan_r in E).
      destruct (ltb_negative_transitive _ x _ E' Hx) as [H | H]; [congruence |].
      now rewrite (ltb_asymmetric _ _ E) in H.
    + (* y = x *)
      unfold m in *. destruct (PyFloat.ltb first x) eqn:E; [exact Hm |].
      destruct (PyFloat.ltb (max_float first rest) x) eqn:E'; [| reflexivity].
      destruct first as [s|s| |s mf ef] eqn:Ef;
        try (destruct (ltb_negative_transitive _ first _ E') as [H | H];
             subst first; congruence).
      now rewrite max_float_nan, ltb_nan_l in E'.
Qed.

(** X13: the duration of the sequence is [int(video_duration * fps)] frames
    over [int(fps)], written [<frames>/<fps>s].  Without a given duration it is computed from one
    second after the latest end: an end of the list than which no end is
    greater; without segments either, from 60 seconds. *)
Theorem fcpxml_sequence_duration (segments : list segment) (video_duration : option float)
    (fps : float) (fcpxml : element) :
  fcpxml_tree segments video_duration fps = Ok fcpxml ->
  exists (duration : float) (total_frames fps_int : Z) (sequence : element),
    match video_duration, segments with
    | Some d, _ => duration = d
    | None, [] => duration = PyFloat.of_Z 60
    | None, _ :: _ =>
      exists last,
        duration = PyFloat.add last (PyFloat.of_Z 1)
        /\ In last (map seg_end segments)
        /\ forall seg, In seg segments -> PyFloat.ltb last (seg_end seg) = false
    end
    /\ PyFloat.to_int (PyFloat.mul duration fps) = Ok total_frames
    /\ PyFloat.to_int fps = Ok fps_int
    /\ descend ["library"; "event"; "project"; "sequence"] fcpxml = [sequence]
    /\ attribute "duration" sequence
       = Some (str_int total_frames +:+ "/" +:+ str_int fps_int +:+ "s")
    /\ attribute "format" sequence = Some "r1".
Proof.
  unfold fcpxml_tree. intros H.
  apply rbind_Ok_inv in H as (total_frames & Htotal & H).
  apply rbind_Ok_inv in H as (fps_int & Hfps & H).
  apply rbind_Ok_inv in H as (titles & _ & H). inversion H; subst fcpxml; clear H.
  eexists _, total_frames, fps_int, _.
  split; [| split; [exact Htotal |]; split; [exact Hfps |]; simpl; auto].
  destruct video_duration as [d|]; [reflexivity |].
  destruct segments as [|seg rest]; [reflexivity |].
  exists (max_float (seg_end seg) (map seg_end rest)). split; [reflexivity |].
  split; [apply (max_float_In (seg_end seg) (map seg_end rest)) |].
  intros s Hs. apply max_float_bound. change (In (seg_end s) (map seg_end (seg :: rest))).
  now apply in_map.
Qed.

Lemma fcpxml_sequence_duration_witness :
  let early := {| seg_start := PyFloat.lit 5 0; seg_end := PyFloat.lit 6 0;
                  seg_text := "late start, early end" |} in
  let segments := [sample_segment "one"; early; instant_segment] in
  let fps := PyFloat.of_Z 30 in
  exists fcpxml,
    fcpxml_tree segments None fps = Ok fcpxml
    /\ exists (duration : float) (total_frames fps_int : Z) (sequence : element),
        (exists last,
            duration = PyFloat.add last (PyFloat.of_Z 1)
            /\ In last (map seg_end segments)
            /\ forall seg, In seg segments -> PyFloat.ltb last (seg_end seg) = false)
        /\ PyFloat.to_int (PyFloat.mul duration fps) = Ok total_frames
        /\ PyFloat.to_int fps = Ok fps_int
        /\ descend ["library"; "event"; "project"; "sequence"] fcpxml = [sequence]
        /\ attribute "duration" sequence
           = Some (str_int total_frames +:+ "/" +:+ str_int fps_int +:+ "s")
        /\ attribute "format" sequence = Some "r1".
Proof.
  intros early segments fps.
  destruct (fcpxml_tree segments None fps) as [fcpxml|e] eqn:E;
    [| vm_compute in E; discriminate].
  exists fcpxml. split; [reflexivity |].
  exact (fcpxml_sequence_duration segments None fps fcpxml E).
Defined.

Lemma title_element_tag (fps : float) (i : Z) (seg : segment) (title : element) :
  title_element fps i seg = Ok title -> tag_of title = "title".
Proof.
  unfold title_element. intros H.
  apply rbind_Ok_inv in H as (start_frames & _ & H).
  apply rbind_Ok_inv in H as (span_frames & _ & H).
  apply rbind_Ok_inv in H as (fps_int & _ & H). now inversion H.
Qed.

Lemma fcpxml_tree_spine (segments : list segment) (video_duration : option float)
    (fps : float) (fcpxml : element) :
  fcpxml_tree segments video_duration fps = Ok fcpxml ->
  Forall2 (fun entry title => title_element fps (fst entry) (snd entry) = Ok title)
          (enumerate 1 segments) (spine_titles fcpxml)
  /\ map (attribute "id") (descend ["resources"; "format"] fcpxml) = [Some "r1"]
  /\ map (attribute "id") (descend ["resources"; "effect"] fcpxml) = [Some "r2"].
Proof.
  unfold fcpxml_tree. intros H.
  apply rbind_Ok_inv in H as (total_frames & _ & H).
  apply rbind_Ok_inv in H as (fps_int & _ & H).
  apply rbind_Ok_inv in H as (titles & Htitles & H). inversion H; subst fcpxml; clear H.
  apply collect_Forall2 in Htitles.
  assert (Hall : Forall2 (fun entry title =>
                            title_element fps (fst entry) (snd entry) = Ok title)
                         (enumerate 1 segments) titles).
  { eapply Forall2_impl; [exact Htitles |]. now intros [i seg] title. }
  assert (Htags : Forall (fun c => tag_of c = "title") titles).
  { clear -Hall. induction Hall as [|entry title ? ? Ht _ IH]; constructor; [| exact IH].
    exact (title_element_tag _ _ _ _ Ht). }
  split; [| split; reflexivity].
  unfold spine_titles. simpl. rewrite !app_nil_r, select_titles by exact Htags.
  exact Hall.
Qed.

(** X14: the spine holds one [title] per segment, in order.  The title of
    the segment at position [k] is named 字幕 [k + 1], refers to the
    effect [r2], which the resources define, starts at [3600s], and holds
    the text of the segment as it is, in a [text-style] that refers to
    the style definition [ts<k + 1>] of the same title. *)
Theorem fcpxml_titles_carry_text (segments : list segment) (video_duration : option float)
    (fps : float) (fcpxml : element) :
  fcpxml_tree segments video_duration fps = Ok fcpxml ->
  length (spine_titles fcpxml) = length segments
  /\ map (attribute "id") (descend ["resources"; "effect"] fcpxml) = [Some "r2"]
  /\ forall (k : nat) (seg : segment),
      segments !! k = Some seg ->
      exists title,
        spine_titles fcpxml !! k = Some title
        /\ attribute "ref" title = Some "r2"
        /\ attribute "name" title = Some ("字幕 " +:+ str_int (Z.of_nat k + 1))
        /\ attribute "start" title = Some "3600s"
        /\ map (attribute "id") (descend ["text"; "text-style-def"] title)
           = [Some ("ts" +:+ str_int (Z.of_nat k + 1))]
        /\ descend ["text"; "text-style"] title
           = [Element "text-style" [("ref", "ts" +:+ str_int (Z.of_nat k + 1))]
                      (Some (seg_text seg)) []].
Proof.
  intros H. apply fcpxml_tree_spine in H as (Hall & _ & Heffect).
  split; [rewrite <- (Forall2_length _ _ _ Hall); apply enumerate_length |].
  split; [exact Heffect |].
  intros k seg Hk.
  assert (Hek : enumerate 1 segments !! k = Some (1 + Z.of_nat k, seg))
    by (rewrite enumerate_lookup, Hk; reflexivity).
  destruct (Forall2_lookup_l _ _ _ _ _ Hall Hek) as (title & Htitle & Hel).
  exists title. split; [exact Htitle |].
  simpl in Hel. unfold title_element in Hel.
  apply rbind_Ok_inv in Hel as (start_frames & _ & Hel).
  apply rbind_Ok_inv in Hel as (span_frames & _ & Hel).
  apply rbind_Ok_inv in Hel as (fps_int & _ & Hel). inversion Hel; subst title.
  replace (1 + Z.of_nat k) with (Z.of_nat k + 1) by lia.
  repeat split; reflexivity.
Qed.

Lemma fcpxml_titles_carry_text_witness :
  let segments := [sample_segment "one"; instant_segment] in
  exists fcpxml,
    fcpxml_tree segments None (PyFloat.of_Z 30) = Ok fcpxml
    /\ length (spine_titles fcpxml) = length segments
    /\ map (attribute "id") (descend ["resources"; "effect"] fcpxml) = [Some "r2"]
    /\ forall (k : nat) (seg : segment),
        segments !! k = Some seg ->
        exists title,
          spine_titles fcpxml !! k = Some title
          /\ attribute "ref" title = Some "r2"
          /\ attribute "name" title = Some ("字幕 " +:+ str_int (Z.of_nat k + 1))
          /\ attribute "start" title = Some "3600s"
          /\ map (attribute "id") (descend ["text"; "text-style-def"] title)
             = [Some ("ts" +:+ str_int (Z.of_nat k + 1))]
          /\ descend ["text"; "text-style"] title
             = [Element "text-style" [("ref", "ts" +:+ str_int (Z.of_nat k + 1))]
                        (Some (seg_text seg)) []].
Proof.
  intros segments.
  destruct (fcpxml_tree segments None (PyFloat.of_Z 30)) as [fcpxml|e] eqn:E;
    [| vm_compute in E; discriminate].
  exists fcpxml. split; [reflexivity |].
  exact (fcpxml_titles_carry_text segments None (PyFloat.of_Z 30) fcpxml E).
Defined.

(** ** Line feeds in the text of a Dialogue line *)

Lemma replace_char_app (c : ascii) (new s1 s2 : string) :
  replace_char c new (s1 +:+ s2) = replace_char c new s1 +:+ replace_char c new s2.
Proof.
  induction s1 as [|a s1 IH]; [reflexivity |].
  rewrite append_cons. simpl. rewrite IH.
  destruct (Ascii.eqb a c); [now rewrite append_assoc | reflexivity].
Qed.

Lemma replace_char_absent (c : ascii) (new s : string) :
  count_char c s = O -> replace_char c new s = s.
Proof.
  induction s as [|a s IH]; [reflexivity |]. simpl.
  destruct (Ascii.eqb a c); [discriminate |]. intros H. now rewrite IH.
Qed.

(** X12: the text of a Dialogue line is the text of the segment exactly
    when that holds no line feed; each line feed makes it one character
    longer; and a line feed is written like the two characters [\N]
    already in the text, so the two cannot be told apart in the file. *)
Theorem ass_text_escaping (s s1 s2 : string) :
  (replace_char "010" "\N" s = s <-> count_char "010" s = O)
  /\ String.length (replace_char "010" "\N" s)
     = (String.length s + count_char "010" s)%nat
  /\ replace_char "010" "\N" (s1 +:+ LF +:+ s2)
     = replace_char "010" "\N" (s1 +:+ "\N" +:+ s2).
Proof.
  split; [split |].
  - intros H. rewrite <- H. now apply replace_char_count.
  - apply replace_char_absent.
  - split.
    + induction s as [|a s IH]; [reflexivity |]. simpl.
      destruct (Ascii.eqb a "010"); simpl.
      * rewrite string_length_app, IH. simpl. lia.
      * now rewrite IH.
    + now rewrite !replace_char_app.
Qed.

(** * Further properties of the translation layers *)

Section TranslationLayers.

Variable lower : string -> string.

(** What either layer does to the processor, for any outcome. *)
Lemma layer_outcome (self self' : StyleProcessor) (text llm_answer : string)
    (outcome : option string) :
  _translate_with_ai_layer2 lower self text llm_answer = (outcome, self')
  \/ _translate_with_ai_layer3 lower self text = Ok (outcome, self') ->
  match outcome with
  | Some r => self' = cache_store (lower text) r self
  | None => self' = self
  end.
Proof.
  intros [H | H].
  - unfold _translate_with_ai_layer2 in H.
    destruct (nonempty llm_answer); [| now inversion H].
    destruct (nonempty (remove_prefixes (strip llm_answer))
              && negb (String.eqb (remove_prefixes (strip llm_answer)) text));
      now inversion H.
  - unfold _translate_with_ai_layer3 in H.
    apply rbind_Ok_inv in H as (raw & _ & H).
    destruct (nonempty raw && nonempty (strip raw) && negb (String.eqb raw text));
      now inversion H.
Qed.


(** X16: two translations one after the other.  The cache is keyed by the
    phrase in lower case, so two phrases that differ only by case share
    one entry and the later translation replaces the earlier one; for
    phrases with different keys both translations are kept. *)
Theorem translations_compose (self self1 self2 : StyleProcessor)
    (text1 text2 answer1 answer2 r1 r2 : string) :
  _translate_with_ai_layer2 lower self text1 answer1 = (Some r1, self1)
  \/ _translate_with_ai_layer3 lower self text1 = Ok (Some r1, self1) ->
  _translate_with_ai_layer2 lower self1 text2 answer2 = (Some r2, self2)
  \/ _translate_with_ai_layer3 lower self1 text2 = Ok (Some r2, self2) ->
  translation_cache self2 !! lower text2 = Some r2
  /\ translation_cache self2 !! lower text1
     = Some (if decide (lower text1 = lower text2) then r2 else r1)
  /\ forall key, key <> lower text1 -> key <> lower text2 ->
                 translation_cache self2 !! key = translation_cache self !! key.
Proof.
  intros H1 H2. apply layer_outcome in H1, H2. subst self2 self1. simpl.
  split; [apply lookup_insert_eq |]. split.
  - destruct (decide (lower text1 = lower text2)) as [-> | Hne].
    + apply lookup_insert_eq.
    + rewrite lookup_insert_ne by congruence. apply lookup_insert_eq.
  - intros key Hk1 Hk2. now rewrite !lookup_insert_ne by congruence.
Qed.

End TranslationLayers.


Lemma translations_compose_witness :
  let self := sample_processor (Some sample_s2hk) in
  let self1 := cache_store "software" "軟件" self in
  let self2 := cache_store "software" "軟體" self1 in
  (_translate_with_ai_layer2 ascii_lower self "Software" "軟件" = (Some "軟件", self1)
   \/ _translate_with_ai_layer3 ascii_lower self "Software" = Ok (Some "軟件", self1))
  /\ (_translate_with_ai_layer2 ascii_lower self1 "SOFTWARE" "結果：軟體"
      = (Some "軟體", self2)
      \/ _translate_with_ai_layer3 ascii_lower self1 "SOFTWARE" = Ok (Some "軟體", self2))
  /\ translation_cache self2 !! ascii_lower "SOFTWARE" = Some "軟體"
  /\ translation_cache self2 !! ascii_lower "Software"
     = Some (if decide (ascii_lower "Software" = ascii_lower "SOFTWARE")
             then "軟體" else "軟件")
  /\ forall key, key <> ascii_lower "Software" -> key <> ascii_lower "SOFTWARE" ->
                 translation_cache self2 !! key = translation_cache self !! key.
Proof.
  intros self self1 self2.
  assert (H1 : _translate_with_ai_layer2 ascii_lower self "Software" "軟件"
               = (Some "軟件", self1)
               \/ _translate_with_ai_layer3 ascii_lower self "Software"
                  = Ok (Some "軟件", self1))
    by (left; vm_compute; reflexivity).
  assert (H2 : _translate_with_ai_layer2 ascii_lower self1 "SOFTWARE" "結果：軟體"
               = (Some "軟體", self2)
               \/ _translate_with_ai_layer3 ascii_lower self1 "SOFTWARE"
                  = Ok (Some "軟體", self2))
    by (left; vm_compute; reflexivity).
  split; [exact H1 |]. split; [exact H2 |].
  exact (translations_compose ascii_lower self self1 self2 "Software" "SOFTWARE"
           "軟件" "結果：軟體" "軟件" "軟體" H1 H2).
Defined.

(** * Further properties of the prompt and of exports in a row *)

Lemma append_inv_tail (s1 s2 t : string) : s1 +:+ t = s2 +:+ t -> s1 = s2.
Proof.
  intros H. apply (f_equal list_ascii_of_string) in H.
  rewrite !list_ascii_app in H. apply app_inv_tail in H.
  rewrite <- (string_of_list_ascii_of_string s1), <- (string_of_list_ascii_of_string s2).
  now rewrite H.
Qed.

(** X17: the prompt handed to Whisper determines the custom vocabulary:
    two configurations that lead to the same prompt have the same
    vocabulary, a missing entry counting as the empty one.  So no two
    different vocabularies are confused, and none is confused with the
    absence of a vocabulary. *)
Theorem prompt_determines_vocabulary (config1 config2 : gmap string string)
    (audio_path1 audio_path2 : string) :
  call_initial_prompt (pipeline_transcribe config1 audio_path1)
  = call_initial_prompt (worker_transcribe config2 audio_path2) ->
  config_get config1 "whisper_custom_prompt" EmptyString
  = config_get config2 "whisper_custom_prompt" EmptyString.
Proof.
  unfold pipeline_transcribe, worker_transcribe. simpl.
  destruct (config_get config1 "whisper_custom_prompt" EmptyString) as [|a1 c1],
           (config_get config2 "whisper_custom_prompt" EmptyString) as [|a2 c2];
    simpl; intros H; try discriminate; [reflexivity |].
  apply (inj Some) in H.
  apply (inj (String.app base_prompt)) in H.
  apply (inj (String.app "用戶指定詞彙：")) in H.
  exact (append_inv_tail _ _ _ H).
Qed.

Lemma prompt_determines_vocabulary_witness :
  let config1 : gmap string string := {["other" := "x"]} in
  let config2 : gmap string string := {["whisper_custom_prompt" := EmptyString]} in
  call_initial_prompt (pipeline_transcribe config1 "a.wav")
  = call_initial_prompt (worker_transcribe config2 "b.wav")
  /\ config_get config1 "whisper_custom_prompt" EmptyString
     = config_get config2 "whisper_custom_prompt" EmptyString.
Proof.
  intros config1 config2.
  assert (H : call_initial_prompt (pipeline_transcribe config1 "a.wav")
              = call_initial_prompt (worker_transcribe config2 "b.wav"))
    by (vm_compute; reflexivity).
  split; [exact H |].
  exact (prompt_determines_vocabulary config1 config2 "a.wav" "b.wav" H).
Defined.

(** X9: two exports in a row, without I/O errors and with texts that can
    be computed: both return [True] and each file holds its text; when
    the two paths are the same the file holds the text of the second
    export only. *)
Theorem exports_in_sequence (toprettyxml : element -> result string)
    (op1 op2 : export_op) (segments1 segments2 : list segment) (path1 path2 t1 t2 : string)
    (w : World) :
  io_script w = [] ->
  export_text toprettyxml op1 segments1 = Ok t1 ->
  export_text toprettyxml op2 segments2 = Ok t2 ->
  (b1 ← export toprettyxml op1 segments1 path1;
   b2 ← export toprettyxml op2 segments2 path2;
   mret (b1, b2)) w =
  (Ok (true, true),
   {| files := <[path2 := t2]> (<[path1 := t1]> (files w));
      io_script := []; stdout := stdout w |})
  /\ (path1 = path2 -> <[path2 := t2]> (<[path1 := t1]> (files w)) = <[path2 := t2]> (files w))
  /\ (path1 <> path2 -> <[path2 := t2]> (<[path1 := t1]> (files w)) !! path1 = Some t1).
Proof.
  intros Hs H1 H2. split; [| split].
  - set (w1 := {| files := <[path1 := t1]> (files w); io_script := [];
                  stdout := stdout w |}).
    rewrite (bind_Ok _ _ _ _ _ (export_quiet toprettyxml op1 segments1 path1 w t1 Hs H1)).
    rewrite (bind_Ok _ _ _ _ _
               (export_quiet toprettyxml op2 segments2 path2 w1 t2 eq_refl H2)).
    reflexivity.
  - intros ->. apply insert_insert_eq.
  - intros Hne. rewrite lookup_insert_ne by congruence. apply lookup_insert_eq.
Qed.

Lemma exports_in_sequence_witness :
  let w := quiet_world {["out" := "old"]} [] in
  let t1 := "1" +:+ LF +:+ "00:00:01,500 --> 00:00:03,250" +:+ LF +:+ "one" +:+ LF +:+ LF in
  let t2 := "one" +:+ LF in
  io_script w = []
  /\ export_text sample_serialiser Srt [sample_segment "one"] = Ok t1
  /\ export_text sample_serialiser (Txt false) [sample_segment "one"] = Ok t2
  /\ (b1 ← export sample_serialiser Srt [sample_segment "one"] "out";
      b2 ← export sample_serialiser (Txt false) [sample_segment "one"] "out";
      mret (b1, b2)) w =
     (Ok (true, true),
      {| files := <["out" := t2]> (<["out" := t1]> (files w));
         io_script := []; stdout := stdout w |})
  /\ ("out" = "out" -> <["out" := t2]> (<["out" := t1]> (files w)) = <["out" := t2]> (files w))
  /\ ("out" <> "out" -> <["out" := t2]> (<["out" := t1]> (files w)) !! "out" = Some t1).
Proof.
  intros w t1 t2.
  assert (H1 : export_text sample_serialiser Srt [sample_segment "one"] = Ok t1)
    by (vm_compute; reflexivity).
  assert (H2 : export_text sample_serialiser (Txt false) [sample_segment "one"] = Ok t2)
    by (vm_compute; reflexivity).
  split; [reflexivity |]. split; [exact H1 |]. split; [exact H2 |].
  exact (exports_in_sequence sample_serialiser Srt (Txt false) [sample_segment "one"]
           [sample_segment "one"] "out" "out" t1 t2 w eq_refl H1 H2).
Defined.

(** * When an export succeeds *)




